(** * Kofeinator: a one-compartment caffeine model

    A shallow embedding of [kofeinator.py] and [streamlit_app.py].

    Number model.  Python [float] values are idealised as real numbers
    ([R]): sums, products and [np.exp] are exact, there is no overflow and
    no rounding.  The one discrete outcome of float arithmetic in the code,
    the number of points of [np.arange], is computed on binary64 values as
    numpy computes it.  Python [int] values are [Z].  [datetime] and
    [timedelta] values, which Python stores with microsecond resolution, are
    integers counting microseconds.  Every call of [datetime.today()] is a
    separate reading of the clock.  A raised exception is a value of
    [result]. *)

From Stdlib Require Import Reals Lra Lia ZArith List String Bool Psatz.
From Stdlib Require Import Permutation Ascii.
From Stdlib Require Import Floats Uint63.
Import ListNotations.
Open Scope R_scope.

(** ** Exceptions *)

Inductive exception : Set :=
| ZeroDivisionError
| TypeError
| KeyError
| ValueError
| IndexError.

Inductive result (A : Type) : Type :=
| Ok (a : A)
| Raise (e : exception).

Arguments Ok {A} a.
Arguments Raise {A} e.

Definition bind {A B : Type} (m : result A) (k : A -> result B) : result B :=
  match m with
  | Ok a => k a
  | Raise e => Raise e
  end.

Notation "x <- m ;; k" := (bind m (fun x => k))
  (at level 61, m at next level, right associativity).

(** ** Python and numpy primitives *)

(** [x / y] on Python floats: a zero divisor raises. *)
Definition truediv (x y : R) : result R :=
  if Req_dec_T y 0 then Raise ZeroDivisionError else Ok (x / y).

(** [np.maximum(a, 0)] on an array. *)
Definition np_maximum (a : list R) (m : R) : list R :=
  map (fun x => Rmax x m) a.

(** [a + b] on two arrays of the same shape. *)
Fixpoint np_add (a b : list R) : list R :=
  match a, b with
  | x :: a', y :: b' => (x + y) :: np_add a' b'
  | _, _ => []
  end.

(** [np.zeros_like(a)]. *)
Definition np_zeros_like {A : Type} (a : list A) : list R :=
  map (fun _ => 0) a.

(** ** The PK model function (identical in both files) *)

(** [C = (F * dose * Ka) / (Vd * (Ka - Ke)) * (np.exp(-Ke * t) - np.exp(-Ka * t))]
    followed by [np.maximum(C, 0)].  The quotient is taken on Python
    scalars, before the array [t] is touched. *)
Definition calculate_plasma_concentration
    (dose F Ka Ke Vd : R) (t : list R) : result (list R) :=
  q <- truediv (F * dose * Ka) (Vd * (Ka - Ke)) ;;
  let C := map (fun ti => q * (exp (- Ke * ti) - exp (- Ka * ti))) t in
  let C := np_maximum C 0 in
  Ok C.

(** ** Personal parameters (sidebar widgets) *)

(** "muž" / "žena" *)
Inductive Gender : Set := Muz | Zena.
(** "nekuřák" / "kuřák" *)
Inductive SmokingStatus : Set := Nekurak | Kurak.
(** "normální" / "mírně snížená" / "výrazně snížená" *)
Inductive LiverFunction : Set := JatraNormalni | MirneSnizena | VyrazneSnizena.
(** "normální" / "pomalý metabolizátor" / "rychlý metabolizátor" *)
Inductive MetabolismStatus : Set :=
  MetabolismusNormalni | PomalyMetabolizator | RychlyMetabolizator.

Record Profile : Set := {
  weight : Z;
  gender : Gender;
  smoking_status : SmokingStatus;
  liver_function : LiverFunction;
  metabolism_status : MetabolismStatus
}.

(** The range enforced by [number_input(min_value=30, max_value=150)]. *)
Definition valid_profile (p : Profile) : Prop :=
  (30 <= weight p <= 150)%Z.

(** ** Pharmacokinetic parameters *)

Definition F : R := 1.0.
Definition Ka : R := 1.2.
Definition Vd_standard : R := 0.6.
Definition CL_standard : R := 0.06.

Definition Vd (p : Profile) : R :=
  let Vd := Vd_standard * IZR (weight p) in
  let Vd := match gender p with Zena => Vd * 0.85 | Muz => Vd end in
  Vd.

Definition CL (p : Profile) : R :=
  let CL := CL_standard * IZR (weight p) in
  let CL := match metabolism_status p with
            | PomalyMetabolizator => CL * 0.3
            | RychlyMetabolizator => CL * 1.3
            | MetabolismusNormalni => CL
            end in
  let CL := match smoking_status p with Kurak => CL * 1.5 | Nekurak => CL end in
  let CL := match gender p with Zena => CL * 0.85 | Muz => CL end in
  let CL := match liver_function p with
            | MirneSnizena => CL * 0.8
            | VyrazneSnizena => CL * 0.5
            | JatraNormalni => CL
            end in
  CL.

(** [Ke = CL / Vd] *)
Definition Ke (p : Profile) : result R := truediv (CL p) (Vd p).

(** ** [datetime], [time] and [timedelta] *)

(** A [timedelta] is a whole number of microseconds. *)
Definition timedelta : Set := Z.
(** A [datetime] is a number of microseconds since day 0, 00:00. *)
Definition datetime : Set := Z.
(** A [date] is a day number: what [datetime.today()] contributes once
    [datetime.combine] has replaced its time of day. *)
Definition date : Set := Z.

(** The dates that the calls of [datetime.today()] return during one run of
    [main], numbered from 0 in the order of the calls. *)
Definition clock : Set := nat -> date.

Record time : Set := {
  hour : Z;
  minute : Z;
  second : Z;
  microsecond : Z
}.

(** [time(h, m)] *)
Definition mk_time (h m : Z) : time :=
  {| hour := h; minute := m; second := 0; microsecond := 0 |}.

Definition us_per_second : Z := 1000000.
Definition us_per_hour : Z := 3600 * us_per_second.
Definition us_per_day : Z := 24 * us_per_hour.

(** [datetime.combine(d, t)] *)
Definition combine (d : date) (t : time) : datetime :=
  (d * us_per_day
   + ((hour t * 60 + minute t) * 60 + second t) * us_per_second
   + microsecond t)%Z.

(** Rounding to the nearest integer, ties to the even one: what the
    [timedelta] constructor does with a fractional number of microseconds. *)
Definition round_half_even (x : R) : Z :=
  let f := Int_part x in
  let r := x - IZR f in
  if Rlt_dec r (1 / 2) then f
  else if Rlt_dec (1 / 2) r then (f + 1)%Z
  else if Z.even f then f else (f + 1)%Z.

(** [timedelta(hours=h)] *)
Definition timedelta_hours (h : R) : timedelta :=
  round_half_even (h * IZR us_per_hour).

(** [timedelta(days=n)] *)
Definition timedelta_days (n : Z) : timedelta := (n * us_per_day)%Z.

(** [td.total_seconds()] *)
Definition total_seconds (td : timedelta) : R := IZR td / IZR us_per_second.

(** ** The time grid *)

(** A Python [int] as a double (exact for the small values of the
    widgets). *)
Definition float_of_int (z : Z) : float :=
  if (z <? 0)%Z
  then PrimFloat.opp (PrimFloat.of_uint63 (Uint63.of_Z (- z)))
  else PrimFloat.of_uint63 (Uint63.of_Z z).

(** The ceiling of a finite double, as an integer. *)
Definition ceil_double (x : float) : Z :=
  match Prim2SF x with
  | S754_finite sgn m e =>
      let n := if sgn then Zneg m else Zpos m in
      if (0 <=? e)%Z then (n * 2 ^ e)%Z else (- ((- n) / 2 ^ (- e)))%Z
  | _ => 0%Z
  end.

(** The number of elements of [np.arange(start, stop, step)]:
    [ceil((stop - start) / step)], evaluated on doubles. *)
Definition arange_length (start stop step : float) : Z :=
  ceil_double (PrimFloat.div (PrimFloat.sub stop start) step).

(** [np.arange(start, stop, step)].  The doubles [start], [stop] and [step]
    decide the number of points (none when the count is not positive) and a
    zero [step] raises; the points [start + i * step] are the real numbers
    [start_value + i * step_value] that the doubles stand for. *)
Definition np_arange (start stop step : float) (start_value step_value : R)
  : result (list R) :=
  if PrimFloat.eqb step (float_of_int 0) then Raise ZeroDivisionError
  else Ok (map (fun i => start_value + INR i * step_value)
               (seq 0 (Z.to_nat (arange_length start stop step)))).

(** [t_hours = np.arange(0, simulation_time_hours + (time_step_hours / 60),
                         (time_step_hours / 60))] *)
Definition t_hours (simulation_time_hours time_step_hours : Z)
  : result (list R) :=
  let step := PrimFloat.div (float_of_int time_step_hours) (float_of_int 60) in
  let stop := PrimFloat.add (float_of_int simulation_time_hours) step in
  np_arange (float_of_int 0) stop step 0 (IZR time_step_hours / 60).

(** [time_points = [simulation_start_time + timedelta(hours=th) for th in t_hours]] *)
Definition time_points (simulation_start_time : datetime) (t_hours : list R)
  : list datetime :=
  map (fun th => (simulation_start_time + timedelta_hours th)%Z) t_hours.

(** ** The dose loop (the same body in both files) *)

Section DoseLoop.
Variables (F Ka Ke Vd : R).
Variable time_points : list datetime.

(** [np.array([(tp - dose_time).total_seconds() / 3600 for tp in time_points])]
    then [np.maximum(time_since_dose, 0)]. *)
Definition time_since_dose (dose_time : datetime) : list R :=
  let time_since_dose :=
    map (fun tp => total_seconds (tp - dose_time)%Z / 3600) time_points in
  np_maximum time_since_dose 0.

(** The curve of one dose. *)
Definition C_dose (dose : R) (dose_time : datetime) : result (list R) :=
  calculate_plasma_concentration dose F Ka Ke Vd (time_since_dose dose_time).

(** [for ... : C_dose = ...; C += C_dose], over the (dose, dose_time)
    pairs the loop visits, starting from the array [C]. *)
Fixpoint accumulate (C : list R) (doses : list (R * datetime))
  : result (list R) :=
  match doses with
  | [] => Ok C
  | (dose, dose_time) :: rest =>
      Cd <- C_dose dose dose_time ;;
      accumulate (np_add C Cd) rest
  end.

(** [C = np.zeros_like(t_hours)] followed by the loop; [time_points] has
    one element per element of [t_hours]. *)
Definition simulate (doses : list (R * datetime)) : result (list R) :=
  accumulate (np_zeros_like time_points) doses.
End DoseLoop.

(** ** The bedtime query (the same code in both files) *)

(** [min(iterable, key=...)]: the first element whose key is least. *)
Fixpoint min_from {A : Type} (key : A -> Z) (best : A) (rest : list A) : A :=
  match rest with
  | [] => best
  | x :: rest' =>
      if (key x <? key best)%Z then min_from key x rest'
      else min_from key best rest'
  end.

Definition py_min {A : Type} (key : A -> Z) (l : list A) : result A :=
  match l with
  | [] => Raise ValueError
  | x :: rest => Ok (min_from key x rest)
  end.

(** [a[i]] *)
Definition getitem {A : Type} (a : list A) (i : nat) : result A :=
  match nth_error a i with
  | Some x => Ok x
  | None => Raise IndexError
  end.

(** [bedtime_datetime = datetime.combine(datetime.today(), bedtime)],
    moved to the next day when it precedes the simulation start. *)
Definition bedtime_datetime (today : date) (simulation_start_time : datetime)
    (bedtime : time) : datetime :=
  let bedtime_datetime := combine today bedtime in
  if (bedtime_datetime <? simulation_start_time)%Z
  then (bedtime_datetime + timedelta_days 1)%Z
  else bedtime_datetime.

(** [idx_bedtime = min(range(len(time_points)),
                       key=lambda i: abs(time_points[i] - bedtime_datetime))] *)
Definition idx_bedtime (time_points : list datetime) (bedtime_datetime : datetime)
  : result nat :=
  py_min (fun i => Z.abs (nth i time_points 0%Z - bedtime_datetime))
         (seq 0 (List.length time_points)).

(** The sleep threshold test [caffeine_at_bedtime > 1.0]. *)
Definition exceeds_sleep_threshold (caffeine_at_bedtime : R) : bool :=
  if Rlt_dec 1.0 caffeine_at_bedtime then true else false.

(** The concentration shown for the bedtime, and whether the warning
    branch is taken. *)
Definition bedtime_query (time_points : list datetime) (C : list R)
    (bedtime_datetime : datetime) : result (R * bool) :=
  idx <- idx_bedtime time_points bedtime_datetime ;;
  caffeine_at_bedtime <- getitem C idx ;;
  Ok (caffeine_at_bedtime, exceeds_sleep_threshold caffeine_at_bedtime).

(** ** Time labels (the same code in both files) *)

Definition us_per_minute : Z := 60 * us_per_second.

(** One decimal digit as a character. *)
Definition digit (n : Z) : ascii := ascii_of_nat (48 + Z.to_nat n).

(** A field printed with two decimal digits, as [%H] and [%M] are. *)
Definition two_digits (n : Z) : string :=
  String (digit (n / 10)) (String (digit (n mod 10)) EmptyString).

(** [dt.strftime('%H:%M')] *)
Definition strftime_HM (dt : datetime) : string :=
  let us := (dt mod us_per_day)%Z in
  let h := (us / us_per_hour)%Z in
  let m := ((us mod us_per_hour) / us_per_minute)%Z in
  (two_digits h ++ ":" ++ two_digits m)%string.

(** [time_labels = [tp.strftime('%H:%M') for tp in time_points]] *)
Definition time_labels (time_points : list datetime) : list string :=
  map strftime_HM time_points.

(** ** streamlit_app.py: the list of coffee entries *)

Module StreamlitApp.

(** [coffee_options]: caffeine per serving in mg; the custom entry
    carries [None]. *)
Definition coffee_options : list (string * option Z) :=
  [ ("Espresso (30 ml)"%string, Some 63%Z);
    ("Drip (240 ml)"%string, Some 95%Z);
    ("French Press (240 ml)"%string, Some 100%Z);
    ("Cold Brew (240 ml)"%string, Some 120%Z);
    ("Instantní káva (240 ml)"%string, Some 65%Z);
    ("Decaf (240 ml)"%string, Some 5%Z);
    ("Cappuccino (240 ml)"%string, Some 75%Z);
    ("Latte (240 ml)"%string, Some 75%Z);
    ("Americano (1 dávka espressa)"%string, Some 63%Z);
    ("Mocha (240 ml)"%string, Some 80%Z);
    ("Turecká káva (60 ml)"%string, Some 60%Z);
    ("Vlastní dávka"%string, None) ].

(** [d.keys()] *)
Definition keys {V : Type} (d : list (string * V)) : list string :=
  map fst d.

(** [d.get(key, default)] *)
Fixpoint dict_get {V : Type} (d : list (string * V)) (key : string)
    (default : V) : V :=
  match d with
  | [] => default
  | (k, v) :: d' => if String.eqb k key then v else dict_get d' key default
  end.

(** [caffeine_per_serving * servings], where the left operand may be
    [None]. *)
Definition mul_servings (caffeine_per_serving : option Z) (servings : Z)
  : result Z :=
  match caffeine_per_serving with
  | Some c => Ok (c * servings)%Z
  | None => Raise TypeError
  end.

(** One element of [st.session_state.coffee_entries]. *)
Record entry : Set := {
  type : string;
  dose : Z;
  time_ : time
}.

(** The body of [if add_entry:], on the session's list of entries. *)
Definition add_entry (coffee_entries : list entry) (coffee_choice : string)
    (servings : Z) (dose_time : time) : result (list entry) :=
  let caffeine_per_serving := dict_get coffee_options coffee_choice (Some 0%Z) in
  total_caffeine <- mul_servings caffeine_per_serving servings ;;
  Ok (coffee_entries ++
      [ {| type := coffee_choice; dose := total_caffeine; time_ := dose_time |} ]).

(** [if st.session_state.coffee_entries: ... coffee_entries.pop()] *)
Definition remove_last (coffee_entries : list entry) : list entry :=
  removelast coffee_entries.

(** [simulation_start_time = datetime.combine(datetime.today(), time(0, 0))] *)
Definition simulation_start_time (today : date) : datetime :=
  combine today (mk_time 0 0).

(** The (dose, dose_time) pairs of [for entry in coffee_entries], when the
    next call of [datetime.today()] is call number [k]: every round reads
    the clock again for
    [dose_time = datetime.combine(datetime.today(), entry['time'])]. *)
Fixpoint doses_from (clock : clock) (k : nat) (coffee_entries : list entry)
  : list (R * datetime) :=
  match coffee_entries with
  | [] => []
  | e :: rest =>
      (IZR (dose e), combine (clock k) (time_ e)) :: doses_from clock (S k) rest
  end.

(** The pairs of the loop of [main]: call 0 of [datetime.today()] was made
    for [simulation_start_time], so the loop begins with call 1. *)
Definition doses (clock : clock) (coffee_entries : list entry)
  : list (R * datetime) :=
  doses_from clock 1%nat coffee_entries.

(** The curve [C] that [main] plots for a profile, the entries and the grid
    configuration, under the dates [clock] that the run reads. *)
Definition curve (clock : clock) (p : Profile) (coffee_entries : list entry)
    (simulation_time_hours time_step_hours : Z) : result (list R) :=
  Ke <- Ke p ;;
  t_hours <- t_hours simulation_time_hours time_step_hours ;;
  let time_points := time_points (simulation_start_time (clock 0%nat)) t_hours in
  simulate F Ka Ke (Vd p) time_points (doses clock coffee_entries).

(** [simulation_end_time = simulation_start_time + timedelta(hours=simulation_time_hours)] *)
Definition simulation_end_time (today : date) (simulation_time_hours : Z)
  : datetime :=
  (simulation_start_time today + timedelta_hours (IZR simulation_time_hours))%Z.

(** The bedtime part of [main]: the concentration written for the bedtime
    and whether the warning is shown.  The bedtime is combined with the
    date of one more call of [datetime.today()], made after the calls of the
    dose loop. *)
Definition bedtime_result (clock : clock) (p : Profile)
    (coffee_entries : list entry) (simulation_time_hours time_step_hours : Z)
    (bedtime : time) : result (R * bool) :=
  C <- curve clock p coffee_entries simulation_time_hours time_step_hours ;;
  t_hours <- t_hours simulation_time_hours time_step_hours ;;
  let start := simulation_start_time (clock 0%nat) in
  let time_points := time_points start t_hours in
  let bedtime_today := clock (S (List.length coffee_entries)) in
  bedtime_query time_points C (bedtime_datetime bedtime_today start bedtime).

(** [if bedtime_datetime <= simulation_end_time:], the condition under
    which the sleep period is shaded.  [today] is the date read for
    [simulation_start_time] and [bedtime_today] the date read for
    [bedtime_datetime]. *)
Definition shade_bedtime (today bedtime_today : date)
    (simulation_time_hours : Z) (bedtime : time) : bool :=
  (bedtime_datetime bedtime_today (simulation_start_time today) bedtime
   <=? simulation_end_time today simulation_time_hours)%Z.

(** The sum of the doses of the entries, in mg. *)
Definition entries_total (coffee_entries : list entry) : Z :=
  fold_right (fun e acc => (dose e + acc)%Z) 0%Z coffee_entries.

End StreamlitApp.

(** ** kofeinator.py: one coffee type, repeated servings *)

Module Kofeinator.

(** [simulation_start_time = datetime.combine(datetime.today(), first_dose_time)] *)
Definition simulation_start_time (today : date) (first_dose_time : time)
  : datetime :=
  combine today first_dose_time.

(** The (dose, dose_time) pairs of [for i in range(int(servings))]: every
    round uses [total_caffeine] and
    [simulation_start_time + timedelta(hours=i * dosing_interval)]. *)
Definition doses (simulation_start_time : datetime) (total_caffeine : Z)
    (servings : Z) (dosing_interval : R) : list (R * datetime) :=
  map (fun i => (IZR total_caffeine,
                 (simulation_start_time
                  + timedelta_hours (INR i * dosing_interval))%Z))
      (seq 0 (Z.to_nat servings)).

(** The curve [C] that [main] plots.  [today] is the date of the one call
    of [datetime.today()] that the curve depends on, the one made for
    [simulation_start_time]. *)
Definition curve (today : date) (p : Profile) (caffeine_per_serving servings : Z)
    (dosing_interval : R) (first_dose_time : time)
    (simulation_time_hours time_step_hours : Z) : result (list R) :=
  let total_caffeine := (caffeine_per_serving * servings)%Z in
  Ke <- Ke p ;;
  let start := simulation_start_time today first_dose_time in
  t_hours <- t_hours simulation_time_hours time_step_hours ;;
  let time_points := time_points start t_hours in
  simulate F Ka Ke (Vd p) time_points
           (doses start total_caffeine servings dosing_interval).

(** The bedtime part of [main].  [bedtime_today] is the date of the second
    call of [datetime.today()], made for [bedtime_datetime]. *)
Definition bedtime_result (today bedtime_today : date) (p : Profile)
    (caffeine_per_serving servings : Z) (dosing_interval : R)
    (first_dose_time : time) (simulation_time_hours time_step_hours : Z)
    (bedtime : time) : result (R * bool) :=
  C <- curve today p caffeine_per_serving servings dosing_interval
         first_dose_time simulation_time_hours time_step_hours ;;
  t_hours <- t_hours simulation_time_hours time_step_hours ;;
  let start := simulation_start_time today first_dose_time in
  let time_points := time_points start t_hours in
  bedtime_query time_points C (bedtime_datetime bedtime_today start bedtime).

End Kofeinator.

(** ** The adjustment factors as the specification words them *)

Module Spec.

Definition metabolism_factor (m : MetabolismStatus) : R :=
  match m with
  | PomalyMetabolizator => 0.3
  | RychlyMetabolizator => 1.3
  | MetabolismusNormalni => 1.0
  end.

Definition smoking_factor (s : SmokingStatus) : R :=
  match s with Kurak => 1.5 | Nekurak => 1 end.

Definition sex_factor (g : Gender) : R :=
  match g with Zena => 0.85 | Muz => 1 end.

Definition liver_factor (l : LiverFunction) : R :=
  match l with
  | MirneSnizena => 0.8
  | VyrazneSnizena => 0.5
  | JatraNormalni => 1
  end.

(** Baseline distribution volume and clearance. *)
Definition Vd0 (w : Z) : R := 0.6 * IZR w.
Definition CL0 (w : Z) : R := 0.06 * IZR w.

(** The limiting-case formula F·A·Ka·τ·e^(−Ka·τ)/Vd. *)
Definition limiting_case (A F Ka Vd tau : R) : R :=
  F * A * Ka * tau * exp (- Ka * tau) / Vd.

(** Agreement with a value quoted to two decimals. *)
Definition approx2 (x quoted : R) : Prop := Rabs (x - quoted) <= 0.005.

End Spec.

(** ** Inputs used in the examples *)

(** 70 kg, male, non-smoker, normal liver function, normal metabolism. *)
Definition muz_70 : Profile :=
  {| weight := 70; gender := Muz; smoking_status := Nekurak;
     liver_function := JatraNormalni; metabolism_status := MetabolismusNormalni |}.

(** 60 kg, female, smoker, mildly impaired liver, slow metabolism. *)
Definition zena_kuracka_60 : Profile :=
  {| weight := 60; gender := Zena; smoking_status := Kurak;
     liver_function := MirneSnizena; metabolism_status := PomalyMetabolizator |}.

(** 150 kg, male, otherwise like the profile above. *)
Definition muz_150 : Profile :=
  {| weight := 150; gender := Muz; smoking_status := Kurak;
     liver_function := MirneSnizena; metabolism_status := PomalyMetabolizator |}.

(** One Drip coffee at 8:00. *)
Definition drip_at_8 : StreamlitApp.entry :=
  {| StreamlitApp.type := "Drip (240 ml)"; StreamlitApp.dose := 95;
     StreamlitApp.time_ := mk_time 8 0 |}.

(** ** Auxiliary definitions for the proofs *)

(** A dose whose time is moved by [k] microseconds. *)
Definition shift_dose (k : Z) (d : R * datetime) : R * datetime :=
  (fst d, (k + snd d)%Z).

(** The terms of the series of the exponential, without their signs. *)
Definition exp_term (x : R) (n : nat) : R := x ^ n / INR (fact n).

(** The field ranges of a [datetime.time] value. *)
Definition valid_time (t : time) : Prop :=
  (0 <= hour t < 24)%Z /\ (0 <= minute t < 60)%Z /\
  (0 <= second t < 60)%Z /\ (0 <= microsecond t < 1000000)%Z.

(** The time of day in hours after midnight. *)
Definition hours_of (t : time) : R :=
  IZR (combine 0%Z t) / IZR us_per_hour.

(** The minute of the day of a [datetime]. *)
Definition minute_of_day (dt : datetime) : Z :=
  ((dt mod us_per_day) / us_per_minute)%Z.

(** The number of points of the grid of [main]. *)
Definition grid_count (H s : Z) : Z :=
  let step := PrimFloat.div (float_of_int s) (float_of_int 60) in
  let stop := PrimFloat.add (float_of_int H) step in
  arange_length (float_of_int 0) stop step.

(** The grid of [main] when the step is not zero. *)
Definition grid (H s : Z) : list R :=
  map (fun i => 0 + INR i * (IZR s / 60)) (seq 0 (Z.to_nat (grid_count H s))).

(** The integers [a], [a + 1], ..., [a + n - 1]. *)
Definition zrange (a n : nat) : list Z := map Z.of_nat (seq a n).

(** The grid configurations that the widgets allow: a horizon of 1 to 23
    hours and a step of 1 to 60 minutes. *)
Definition widget_grids : list (Z * Z) := list_prod (zrange 1 23) (zrange 1 60).

(** What is checked of every grid configuration of the widgets, by
    evaluation: the step is not zero as a double; with k = ceil(60·H/s) the
    grid has k + 1 or k + 2 points, k + 2 only when s divides 60·H; and the
    last point lies less than 24 hours after the first. *)
Definition grid_check (H s : Z) : bool :=
  let n := grid_count H s in
  let k := ((60 * H + s - 1) / s)%Z in
  negb (PrimFloat.eqb (PrimFloat.div (float_of_int s) (float_of_int 60))
          (float_of_int 0))
  && (k + 1 <=? n)%Z && (n <=? k + 2)%Z
  && implb (n =? k + 2)%Z ((60 * H) mod s =? 0)%Z
  && ((n - 1) * s <? 1440)%Z.

(** A run whose calls of [datetime.today()] all fall on day [d]. *)
Definition same_day (d : date) : clock := fun _ => d.

(** A run that begins on day 0 just before midnight: the first call of
    [datetime.today()] returns day 0, every later call day 1. *)
Definition midnight_straddle : clock :=
  fun k => match k with O => 0%Z | S _ => 1%Z end.

(** The clock does not run backwards past the first reading. *)
Definition clock_forward (c : clock) : Prop := forall k : nat, (c 0%nat <= c k)%Z.

(** The value of the model formula before the clamp. *)
Definition model_value (dose F Ka Ke Vd tau : R) : R :=
  F * dose * Ka / (Vd * (Ka - Ke)) * (exp (- Ke * tau) - exp (- Ka * tau)).

(** The sum of the doses of a list of (dose, dose_time) pairs. *)
Definition total_dose (doses : list (R * datetime)) : R :=
  fold_right (fun d acc => fst d + acc) 0 doses.

(** * Properties *)

(** ** Basic facts about the primitives *)

Lemma truediv_ok (x y : R) : y <> 0 -> truediv x y = Ok (x / y).
Proof.
  intros Hy. unfold truediv. destruct (Req_dec_T y 0) as [E | _]; [contradiction | reflexivity].
Qed.

Lemma truediv_zero (x y : R) : y = 0 -> truediv x y = Raise ZeroDivisionError.
Proof.
  intros Hy. unfold truediv. destruct (Req_dec_T y 0) as [_ | N]; [reflexivity | contradiction].
Qed.

Lemma calculate_plasma_concentration_ok (dose F Ka Ke Vd : R) (t : list R) :
  Vd * (Ka - Ke) <> 0 ->
  calculate_plasma_concentration dose F Ka Ke Vd t =
  Ok (map (fun ti => Rmax (F * dose * Ka / (Vd * (Ka - Ke))
                           * (exp (- Ke * ti) - exp (- Ka * ti))) 0) t).
Proof.
  intros Hd. unfold calculate_plasma_concentration.
  rewrite (truediv_ok _ _ Hd). cbn [bind]. unfold np_maximum.
  now rewrite map_map.
Qed.

Lemma Rdiv_eq_of_mult (x y z : R) : y <> 0 -> x = z * y -> x / y = z.
Proof.
  intros Hy ->. unfold Rdiv. rewrite Rmult_assoc, Rinv_r by assumption. ring.
Qed.

Lemma weight_pos (p : Profile) : valid_profile p -> 30 <= IZR (weight p) <= 150.
Proof.
  intros [Hlo Hhi]. split.
  - now apply IZR_le in Hlo.
  - now apply IZR_le in Hhi.
Qed.

Lemma Vd_closed_form (p : Profile) :
  Vd p = Spec.Vd0 (weight p) * Spec.sex_factor (gender p).
Proof.
  unfold Vd, Spec.Vd0, Spec.sex_factor, Vd_standard.
  destruct (gender p); lra.
Qed.

Lemma CL_closed_form (p : Profile) :
  CL p = Spec.CL0 (weight p)
         * Spec.metabolism_factor (metabolism_status p)
         * Spec.smoking_factor (smoking_status p)
         * Spec.sex_factor (gender p)
         * Spec.liver_factor (liver_function p).
Proof.
  unfold CL, Spec.CL0, Spec.metabolism_factor, Spec.smoking_factor,
    Spec.sex_factor, Spec.liver_factor, CL_standard.
  destruct (metabolism_status p), (smoking_status p), (gender p),
    (liver_function p); lra.
Qed.

Lemma Vd_pos (p : Profile) : valid_profile p -> 0 < Vd p.
Proof.
  intros Hp. apply weight_pos in Hp.
  unfold Vd, Vd_standard. destruct (gender p); lra.
Qed.

Lemma CL_pos (p : Profile) : valid_profile p -> 0 < CL p.
Proof.
  intros Hp. apply weight_pos in Hp.
  unfold CL, CL_standard.
  destruct (metabolism_status p), (smoking_status p), (gender p),
    (liver_function p); lra.
Qed.

(** The elimination constant of a valid profile: the weight and the sex
    factor cancel. *)
Lemma Ke_closed_form (p : Profile) :
  valid_profile p ->
  Ke p = Ok (0.1 * Spec.metabolism_factor (metabolism_status p)
                 * Spec.smoking_factor (smoking_status p)
                 * Spec.liver_factor (liver_function p)).
Proof.
  intros Hp. unfold Ke.
  pose proof (Vd_pos p Hp) as HV.
  rewrite truediv_ok by lra. f_equal.
  assert (Hw : IZR (weight p) <> 0) by (apply weight_pos in Hp; lra).
  unfold CL, Vd, CL_standard, Vd_standard, Spec.metabolism_factor,
    Spec.smoking_factor, Spec.liver_factor.
  destruct (metabolism_status p), (smoking_status p), (gender p),
    (liver_function p); apply Rdiv_eq_of_mult; lra.
Qed.

Lemma Ke_bounds (p : Profile) (ke : R) :
  valid_profile p -> Ke p = Ok ke -> 0 < ke <= 0.195.
Proof.
  intros Hp HK. rewrite (Ke_closed_form p Hp) in HK.
  injection HK as <-.
  unfold Spec.metabolism_factor, Spec.smoking_factor, Spec.liver_factor.
  destruct (metabolism_status p), (smoking_status p), (liver_function p); lra.
Qed.

(** The divisor of the model function is positive for a valid profile. *)
Lemma divisor_pos (p : Profile) :
  valid_profile p -> exists ke : R, Ke p = Ok ke /\ 0 < Vd p * (Ka - ke).
Proof.
  intros Hp. pose proof (Ke_closed_form p Hp) as HK.
  eexists. split; [exact HK |].
  pose proof (Ke_bounds p _ Hp HK) as [_ Hk1].
  pose proof (Vd_pos p Hp) as HV.
  assert (HKa : Ka = 1.2) by reflexivity.
  apply Rmult_lt_0_compat; lra.
Qed.

(** ** C7: derived parameters *)

(** C7.  For every valid profile the derived parameters are the baselines
    0.6·weight and 0.06·weight times the listed factors (metabolism, smoking
    and liver function on CL only, sex on both Vd and CL), and Ke is the
    quotient CL/Vd. *)
Theorem derived_parameters (p : Profile) :
  valid_profile p ->
  Vd p = Spec.Vd0 (weight p) * Spec.sex_factor (gender p) /\
  CL p = Spec.CL0 (weight p)
         * Spec.metabolism_factor (metabolism_status p)
         * Spec.smoking_factor (smoking_status p)
         * Spec.sex_factor (gender p)
         * Spec.liver_factor (liver_function p) /\
  Ke p = Ok (CL p / Vd p).
Proof.
  intros Hp. split; [apply Vd_closed_form | split; [apply CL_closed_form |]].
  unfold Ke. apply truediv_ok.
  pose proof (Vd_pos p Hp). lra.
Qed.

Lemma derived_parameters_witness :
  Vd zena_kuracka_60 = Spec.Vd0 60 * 0.85 /\
  CL zena_kuracka_60 = Spec.CL0 60 * 0.3 * 1.5 * 0.85 * 0.8 /\
  Ke zena_kuracka_60 = Ok (CL zena_kuracka_60 / Vd zena_kuracka_60).
Proof.
  apply (derived_parameters zena_kuracka_60). unfold valid_profile; simpl; lia.
Defined.

(** ** C10: the elimination constant stays below the absorption constant *)

(** C10.  For valid profiles Ke depends neither on the weight nor on the
    sex (two profiles that agree on smoking, liver function and metabolism
    have the same Ke), it is at most 0.195 and so below Ka = 1.2; the
    divisor Vd·(Ka−Ke) is positive and [calculate_plasma_concentration]
    returns a curve instead of raising. *)
Theorem Ke_below_Ka (p q : Profile) :
  valid_profile p -> valid_profile q ->
  smoking_status p = smoking_status q ->
  liver_function p = liver_function q ->
  metabolism_status p = metabolism_status q ->
  exists ke : R,
    Ke p = Ok ke /\ Ke q = Ok ke /\
    ke <= 0.1 * 1.3 * 1.5 /\ ke < Ka /\
    0 < Vd p * (Ka - ke) /\
    forall (dose : R) (t : list R),
      exists C : list R,
        calculate_plasma_concentration dose F Ka ke (Vd p) t = Ok C.
Proof.
  intros Hp Hq Hs Hl Hm.
  pose proof (Ke_closed_form p Hp) as HKp.
  pose proof (Ke_closed_form q Hq) as HKq.
  rewrite <- Hs, <- Hl, <- Hm in HKq.
  eexists. split; [exact HKp | split; [exact HKq |]].
  pose proof (Ke_bounds p _ Hp HKp) as [Hk0 Hk1].
  pose proof (Vd_pos p Hp) as HV.
  assert (HKa : Ka = 1.2) by reflexivity.
  assert (Hpos : 0 < Vd p * (Ka - 0.1 * Spec.metabolism_factor (metabolism_status p)
                                    * Spec.smoking_factor (smoking_status p)
                                    * Spec.liver_factor (liver_function p))).
  { apply Rmult_lt_0_compat; lra. }
  repeat split; try lra.
  intros dose t. eexists. apply calculate_plasma_concentration_ok. lra.
Qed.

Lemma Ke_below_Ka_witness :
  exists ke : R,
    Ke zena_kuracka_60 = Ok ke /\ Ke muz_150 = Ok ke /\
    ke <= 0.1 * 1.3 * 1.5 /\ ke < Ka /\
    0 < Vd zena_kuracka_60 * (Ka - ke) /\
    forall (dose : R) (t : list R),
      exists C : list R,
        calculate_plasma_concentration dose F Ka ke (Vd zena_kuracka_60) t = Ok C.
Proof.
  apply (Ke_below_Ka zena_kuracka_60 muz_150);
    try reflexivity; unfold valid_profile; simpl; lia.
Defined.

(** ** C1: equal rate constants *)

(** C1, as stated, fails: with Ke set equal to Ka the model function
    raises [ZeroDivisionError] and returns no curve. *)
Lemma equal_rates_raise :
  calculate_plasma_concentration 95 F Ka Ka 42 [0; 1] = Raise ZeroDivisionError /\
  ~ (exists C : list R,
       calculate_plasma_concentration 95 F Ka Ka 42 [0; 1]
       = Ok C).
Proof.
  assert (H : calculate_plasma_concentration 95 F Ka Ka 42 [0; 1]
              = Raise ZeroDivisionError).
  { unfold calculate_plasma_concentration.
    rewrite truediv_zero by ring. reflexivity. }
  split; [exact H |]. intros [C HC]. rewrite H in HC. discriminate.
Qed.

(** C1, amended.  The model function has no limiting-case branch and always
    divides by Vd·(Ka−Ke): when that divisor is not zero every point of the
    curve is the general formula clamped at 0, and when Ka = Ke the division
    raises [ZeroDivisionError]. *)
Theorem no_limiting_case_branch (dose F Ka Ke Vd : R) (t : list R) :
  (Vd * (Ka - Ke) <> 0 ->
   calculate_plasma_concentration dose F Ka Ke Vd t =
   Ok (map (fun ti => Rmax (F * dose * Ka / (Vd * (Ka - Ke))
                            * (exp (- Ke * ti) - exp (- Ka * ti))) 0) t)) /\
  (Ka = Ke ->
   calculate_plasma_concentration dose F Ka Ke Vd t = Raise ZeroDivisionError).
Proof.
  split.
  - apply calculate_plasma_concentration_ok.
  - intros ->. unfold calculate_plasma_concentration.
    rewrite truediv_zero by ring. reflexivity.
Qed.

Lemma no_limiting_case_branch_witness :
  calculate_plasma_concentration 95 1 1.2 0.1 42 [0] =
  Ok (map (fun ti => Rmax (1 * 95 * 1.2 / (42 * (1.2 - 0.1))
                           * (exp (- (0.1) * ti) - exp (- (1.2) * ti))) 0) [0]) /\
  calculate_plasma_concentration 95 1 1.2 1.2 42 [0] = Raise ZeroDivisionError.
Proof.
  split.
  - apply (proj1 (no_limiting_case_branch 95 1 1.2 0.1 42 [0])). lra.
  - apply (proj2 (no_limiting_case_branch 95 1 1.2 1.2 42 [0])). reflexivity.
Defined.

(** ** Arrays *)

Lemma np_add_length (a b : list R) :
  List.length a = List.length b -> List.length (np_add a b) = List.length a.
Proof.
  revert b. induction a as [| x a IH]; intros [| y b] Hl; simpl in *;
    try reflexivity; try discriminate.
  f_equal. apply IH. now injection Hl.
Qed.

Lemma np_add_nth (a b : list R) (i : nat) :
  List.length a = List.length b ->
  nth i (np_add a b) 0 = nth i a 0 + nth i b 0.
Proof.
  revert b i. induction a as [| x a IH]; intros [| y b] i Hl; simpl in *;
    try discriminate.
  - destruct i; lra.
  - destruct i as [| i]; [reflexivity |]. apply IH. now injection Hl.
Qed.

Lemma np_add_zeros_l {A : Type} (z : list A) (c : list R) :
  List.length z = List.length c -> np_add (np_zeros_like z) c = c.
Proof.
  unfold np_zeros_like. revert c.
  induction z as [| x z IH]; intros [| y c] Hl; simpl in *;
    try reflexivity; try discriminate.
  rewrite Rplus_0_l. f_equal. apply IH. now injection Hl.
Qed.

Lemma np_add_nonneg (a b : list R) :
  Forall (fun x => 0 <= x) a -> Forall (fun x => 0 <= x) b ->
  Forall (fun x => 0 <= x) (np_add a b).
Proof.
  intros Ha. revert b. induction Ha as [| x a Hx Ha IH]; intros b Hb; simpl.
  - constructor.
  - destruct Hb as [| y b Hy Hb]; constructor; [lra | now apply IH].
Qed.

Lemma np_maximum_nonneg (a : list R) :
  Forall (fun x => 0 <= x) (np_maximum a 0).
Proof.
  unfold np_maximum. apply Forall_forall. intros x Hx.
  apply in_map_iff in Hx as (y & <- & _). apply Rmax_r.
Qed.

Lemma np_zeros_like_nonneg {A : Type} (a : list A) :
  Forall (fun x => 0 <= x) (np_zeros_like a).
Proof.
  unfold np_zeros_like. apply Forall_forall. intros x Hx.
  apply in_map_iff in Hx as (y & <- & _). lra.
Qed.

(** ** The dose loop *)

Section DoseLoopFacts.
Variables (F Ka Ke Vd : R).
Variable tps : list datetime.

Lemma time_since_dose_length (d : datetime) :
  List.length (time_since_dose tps d) = List.length tps.
Proof. unfold time_since_dose, np_maximum. now rewrite !length_map. Qed.

(** A curve returned by the model function has one value per time point,
    none of them negative. *)
Lemma C_dose_shape (dose : R) (d : datetime) (Cd : list R) :
  C_dose F Ka Ke Vd tps dose d = Ok Cd ->
  List.length Cd = List.length tps /\ Forall (fun x => 0 <= x) Cd.
Proof.
  unfold C_dose, calculate_plasma_concentration, truediv.
  destruct (Req_dec_T (Vd * (Ka - Ke)) 0); cbn [bind]; [discriminate |].
  intros [= <-]. split.
  - unfold np_maximum. rewrite !length_map. apply time_since_dose_length.
  - apply np_maximum_nonneg.
Qed.

(** Whether a dose curve can be computed does not depend on the dose. *)
Lemma C_dose_total (dose : R) (d : datetime) :
  Vd * (Ka - Ke) <> 0 -> exists Cd, C_dose F Ka Ke Vd tps dose d = Ok Cd.
Proof.
  intros Hd. eexists. unfold C_dose.
  now apply calculate_plasma_concentration_ok.
Qed.

Lemma C_dose_raise (dose : R) (d : datetime) :
  Vd * (Ka - Ke) = 0 -> C_dose F Ka Ke Vd tps dose d = Raise ZeroDivisionError.
Proof.
  intros Hd. unfold C_dose, calculate_plasma_concentration.
  now rewrite truediv_zero.
Qed.

Lemma accumulate_shape (doses : list (R * datetime)) :
  forall C0 C : list R,
    List.length C0 = List.length tps ->
    Forall (fun x => 0 <= x) C0 ->
    accumulate F Ka Ke Vd tps C0 doses = Ok C ->
    List.length C = List.length tps /\ Forall (fun x => 0 <= x) C.
Proof.
  induction doses as [| [dose d] rest IH]; intros C0 C Hl Hn; simpl.
  - intros [= <-]. now split.
  - destruct (C_dose F Ka Ke Vd tps dose d) as [Cd | e] eqn:E; cbn [bind];
      [| discriminate].
    apply C_dose_shape in E as [El En]. apply IH.
    + rewrite np_add_length; congruence.
    + now apply np_add_nonneg.
Qed.

Lemma accumulate_total (doses : list (R * datetime)) (C0 : list R) :
  Vd * (Ka - Ke) <> 0 ->
  exists C, accumulate F Ka Ke Vd tps C0 doses = Ok C.
Proof.
  intros Hd. revert C0. induction doses as [| [dose d] rest IH]; intros C0; simpl.
  - now eexists.
  - destruct (C_dose_total dose d Hd) as [Cd ->]. cbn [bind]. apply IH.
Qed.

(** With a non-zero divisor the loop returns a curve aligned with the
    time points and without negative values, whatever the doses. *)
Lemma simulate_nonneg (doses : list (R * datetime)) :
  Vd * (Ka - Ke) <> 0 ->
  exists C, simulate F Ka Ke Vd tps doses = Ok C /\
            List.length C = List.length tps /\ Forall (fun x => 0 <= x) C.
Proof.
  intros Hd. unfold simulate.
  destruct (accumulate_total doses (np_zeros_like tps) Hd) as [C HC].
  exists C. split; [exact HC |].
  apply (accumulate_shape doses (np_zeros_like tps)); trivial.
  - unfold np_zeros_like. apply length_map.
  - apply np_zeros_like_nonneg.
Qed.

Lemma simulate_single (dose : R) (d : datetime) :
  simulate F Ka Ke Vd tps [(dose, d)] = C_dose F Ka Ke Vd tps dose d.
Proof.
  unfold simulate. simpl.
  destruct (C_dose F Ka Ke Vd tps dose d) as [Cd | e] eqn:E; cbn [bind];
    [| reflexivity].
  apply C_dose_shape in E as [El _].
  now rewrite np_add_zeros_l.
Qed.
End DoseLoopFacts.

(** ** C3: superposition *)

(** C3.  For any parameters and any list of time points, the loop run on
    two doses returns, point by point, the sum of the curves it returns for
    each dose alone (and raises exactly when those runs raise). *)
Theorem superposition (F Ka Ke Vd : R) (tps : list datetime)
    (d1 d2 : R * datetime) :
  simulate F Ka Ke Vd tps [d1; d2] =
    (C1 <- simulate F Ka Ke Vd tps [d1] ;;
     C2 <- simulate F Ka Ke Vd tps [d2] ;;
     Ok (np_add C1 C2)) /\
  (forall C1 C2 : list R,
     simulate F Ka Ke Vd tps [d1] = Ok C1 ->
     simulate F Ka Ke Vd tps [d2] = Ok C2 ->
     exists C : list R,
       simulate F Ka Ke Vd tps [d1; d2] = Ok C /\
       List.length C = List.length tps /\
       forall i : nat, (i < List.length tps)%nat ->
         nth i C 0 = nth i C1 0 + nth i C2 0).
Proof.
  destruct d1 as [a1 t1], d2 as [a2 t2].
  assert (Heq : simulate F Ka Ke Vd tps [(a1, t1); (a2, t2)] =
                (C1 <- simulate F Ka Ke Vd tps [(a1, t1)] ;;
                 C2 <- simulate F Ka Ke Vd tps [(a2, t2)] ;;
                 Ok (np_add C1 C2))).
  { rewrite !simulate_single. unfold simulate. simpl.
    destruct (C_dose F Ka Ke Vd tps a1 t1) as [C1 | e1] eqn:E1; cbn [bind];
      [| reflexivity].
    destruct (C_dose F Ka Ke Vd tps a2 t2) as [C2 | e2] eqn:E2; cbn [bind];
      [| reflexivity].
    apply C_dose_shape in E1 as [L1 _].
    now rewrite np_add_zeros_l. }
  split; [exact Heq |].
  intros C1 C2 H1 H2. rewrite Heq, H1, H2. cbn [bind].
  rewrite simulate_single in H1, H2.
  apply C_dose_shape in H1 as [L1 _]. apply C_dose_shape in H2 as [L2 _].
  exists (np_add C1 C2). split; [reflexivity |]. split.
  - rewrite np_add_length; congruence.
  - intros i _. apply np_add_nth. congruence.
Qed.

Lemma superposition_witness :
  exists C1 C2 C : list R,
    simulate 1 1.2 0.1 42 [0; 3600000000]%Z [(95, 0%Z)] = Ok C1 /\
    simulate 1 1.2 0.1 42 [0; 3600000000]%Z [(63, 1800000000%Z)] = Ok C2 /\
    simulate 1 1.2 0.1 42 [0; 3600000000]%Z [(95, 0%Z); (63, 1800000000%Z)]
      = Ok C /\
    List.length C = 2%nat /\
    forall i : nat, (i < 2)%nat -> nth i C 0 = nth i C1 0 + nth i C2 0.
Proof.
  assert (Hd : 42 * (1.2 - 0.1) <> 0) by lra.
  destruct (simulate_nonneg 1 1.2 0.1 42 [0; 3600000000]%Z [(95, 0%Z)] Hd)
    as (C1 & H1 & _).
  destruct (simulate_nonneg 1 1.2 0.1 42 [0; 3600000000]%Z
              [(63, 1800000000%Z)] Hd) as (C2 & H2 & _).
  destruct (proj2 (superposition 1 1.2 0.1 42 [0; 3600000000]%Z
                     (95, 0%Z) (63, 1800000000%Z)) C1 C2 H1 H2)
    as (C & HC & HL & Hn).
  exists C1, C2, C. repeat split; assumption.
Defined.

(** ** The grid *)

Lemma widget_grids_checked :
  forallb (fun c => grid_check (fst c) (snd c)) widget_grids = true.
Proof. vm_compute. reflexivity. Qed.

Lemma zrange_In (a n : nat) (z : Z) :
  (Z.of_nat a <= z < Z.of_nat a + Z.of_nat n)%Z -> In z (zrange a n).
Proof.
  intros Hz. unfold zrange. apply in_map_iff. exists (Z.to_nat z).
  split; [lia |]. apply in_seq. lia.
Qed.

Lemma grid_check_ok (H s : Z) :
  (1 <= H <= 23)%Z -> (1 <= s <= 60)%Z -> grid_check H s = true.
Proof.
  intros HH Hs. pose proof widget_grids_checked as Hall.
  rewrite forallb_forall in Hall.
  apply (Hall (H, s)). unfold widget_grids. apply in_prod.
  - apply zrange_In. simpl. lia.
  - apply zrange_In. simpl. lia.
Qed.

(** The step of a widget configuration is not zero as a double.  This does
    not depend on the horizon. *)
Lemma step_not_zero (s : Z) :
  (1 <= s <= 60)%Z ->
  PrimFloat.eqb (PrimFloat.div (float_of_int s) (float_of_int 60))
    (float_of_int 0) = false.
Proof.
  intros Hs. pose proof (grid_check_ok 1 s ltac:(lia) Hs) as Hc.
  unfold grid_check in Hc. rewrite !andb_true_iff in Hc.
  destruct Hc as [[[[Hz _] _] _] _]. now apply negb_true_iff in Hz.
Qed.

Lemma t_hours_ok (H s : Z) :
  (1 <= s <= 60)%Z -> t_hours H s = Ok (grid H s).
Proof.
  intros Hs. unfold t_hours, np_arange. rewrite (step_not_zero s Hs).
  reflexivity.
Qed.

(** A step of 0 minutes makes [np.arange] divide by zero. *)
Lemma t_hours_zero_step (H : Z) : t_hours H 0 = Raise ZeroDivisionError.
Proof.
  unfold t_hours, np_arange.
  replace (PrimFloat.eqb (PrimFloat.div (float_of_int 0) (float_of_int 60))
             (float_of_int 0)) with true by (vm_compute; reflexivity).
  reflexivity.
Qed.

Lemma grid_length (H s : Z) :
  List.length (grid H s) = Z.to_nat (grid_count H s).
Proof. unfold grid. now rewrite length_map, length_seq. Qed.

Lemma grid_nth (H s : Z) (i : nat) :
  (i < List.length (grid H s))%nat ->
  nth i (grid H s) 0 = INR i * (IZR s / 60).
Proof.
  intros Hi. rewrite grid_length in Hi. unfold grid.
  rewrite (nth_indep _ 0 (0 + INR 0 * (IZR s / 60)))
    by now rewrite length_map, length_seq.
  rewrite (map_nth (fun i => 0 + INR i * (IZR s / 60))).
  rewrite seq_nth by assumption. simpl. ring.
Qed.

Lemma grid_seq (H s : Z) :
  grid H s =
  map (fun i => INR i * (IZR s / 60)) (seq 0 (List.length (grid H s))).
Proof.
  rewrite grid_length. unfold grid. apply map_ext. intros i. ring.
Qed.

(** The number of points of a widget configuration: the last index n
    satisfies 60·H <= n·s < 60·H + 2·s and n·s < 1440. *)
Lemma grid_span (H s : Z) :
  (1 <= H <= 23)%Z -> (1 <= s <= 60)%Z ->
  exists n : nat,
    List.length (grid H s) = S n /\
    (60 * H <= Z.of_nat n * s < 60 * H + 2 * s)%Z /\
    (Z.of_nat n * s < 1440)%Z.
Proof.
  intros HH Hs. pose proof (grid_check_ok H s HH Hs) as Hc.
  unfold grid_check in Hc. rewrite !andb_true_iff in Hc.
  destruct Hc as [[[[_ Hlo] Hhi] _] Hday].
  apply Z.leb_le in Hlo. apply Z.leb_le in Hhi. apply Z.ltb_lt in Hday.
  set (k := ((60 * H + s - 1) / s)%Z) in *.
  assert (Hk : (60 * H <= s * k < 60 * H + s)%Z).
  { pose proof (Z.div_mod (60 * H + s - 1) s ltac:(lia)) as Hdm.
    pose proof (Z.mod_pos_bound (60 * H + s - 1) s ltac:(lia)) as Hm.
    fold k in Hdm. lia. }
  exists (Z.to_nat (grid_count H s - 1)).
  assert (Hk0 : (0 <= k)%Z) by nia.
  split; [rewrite grid_length; lia |].
  rewrite Z2Nat.id by lia. split; [nia | exact Hday].
Qed.

Lemma grid_last (H s : Z) :
  (1 <= H <= 23)%Z -> (1 <= s <= 60)%Z ->
  exists n : nat,
    List.length (grid H s) = S n /\
    last (grid H s) 0 = INR n * (IZR s / 60) /\
    IZR H <= INR n * (IZR s / 60) < IZR H + 2 * (IZR s / 60).
Proof.
  intros HH Hs. destruct (grid_span H s HH Hs) as (n & HL & [Hlo Hhi] & _).
  exists n. split; [exact HL |]. split.
  - rewrite grid_seq, HL, seq_S, map_app. simpl. apply last_last.
  - apply IZR_le in Hlo. apply IZR_lt in Hhi.
    rewrite plus_IZR in Hhi. rewrite !mult_IZR, <- INR_IZR_INZ in *.
    lra.
Qed.

(** With a quarter-hour step over 23 hours the grid has 93 points. *)
Lemma grid_23_15_length : List.length (grid 23 15) = 93%nat.
Proof. rewrite grid_length. vm_compute. reflexivity. Qed.

(** ** C4: no negative concentration *)

(** C4.  For every valid profile, every list of entries (the empty one
    included), every grid configuration with a step of 1 to 60 minutes and
    whatever dates the run reads from the clock, [main] obtains a curve
    with one value per grid point, none of them negative. *)
Theorem concentration_nonnegative (clock : clock) (p : Profile)
    (coffee_entries : list StreamlitApp.entry)
    (simulation_time_hours time_step_hours : Z) :
  valid_profile p -> (1 <= time_step_hours <= 60)%Z ->
  exists t_hours_ C : list R,
    t_hours simulation_time_hours time_step_hours = Ok t_hours_ /\
    StreamlitApp.curve clock p coffee_entries
      simulation_time_hours time_step_hours = Ok C /\
    List.length C = List.length t_hours_ /\
    Forall (fun c => 0 <= c) C.
Proof.
  intros Hp Hs. unfold StreamlitApp.curve.
  destruct (divisor_pos p Hp) as (ke & HK & Hpos).
  rewrite HK, (t_hours_ok _ _ Hs). cbn [bind].
  destruct (simulate_nonneg F Ka ke (Vd p)
              (time_points (StreamlitApp.simulation_start_time (clock 0%nat))
                 (grid simulation_time_hours time_step_hours))
              (StreamlitApp.doses clock coffee_entries)) as (C & HC & HL & HN).
  { lra. }
  exists (grid simulation_time_hours time_step_hours), C.
  split; [reflexivity |]. split; [exact HC |]. split; [| exact HN].
  rewrite HL. unfold time_points. apply length_map.
Qed.

Lemma concentration_nonnegative_witness :
  exists t_hours_ C : list R,
    t_hours 23 15 = Ok t_hours_ /\
    StreamlitApp.curve midnight_straddle zena_kuracka_60 [drip_at_8] 23 15
    = Ok C /\
    List.length C = List.length t_hours_ /\
    Forall (fun c => 0 <= c) C.
Proof.
  apply (concentration_nonnegative midnight_straddle zena_kuracka_60
           [drip_at_8] 23 15).
  - unfold valid_profile; simpl; lia.
  - lia.
Defined.

(** ** The curve and the day of the run *)

Lemma combine_day (today : date) (t : time) :
  combine today t = (today * us_per_day + combine 0 t)%Z.
Proof. unfold combine, datetime. ring. Qed.

Lemma time_points_shift (k start : Z) (th : list R) :
  time_points (k + start)%Z th = map (Z.add k) (time_points start th).
Proof.
  unfold time_points, datetime. rewrite map_map. apply map_ext. intros a. ring.
Qed.

Section Shift.
Variables (F Ka Ke Vd : R).
Variable k : Z.
Variable tps : list datetime.

Lemma time_since_dose_shift (d : datetime) :
  time_since_dose (map (Z.add k) tps) (k + d)%Z = time_since_dose tps d.
Proof.
  unfold time_since_dose. rewrite map_map. f_equal. apply map_ext.
  intros tp. do 2 f_equal. ring.
Qed.

Lemma accumulate_shift (doses : list (R * datetime)) (C0 : list R) :
  accumulate F Ka Ke Vd (map (Z.add k) tps) C0 (map (shift_dose k) doses) =
  accumulate F Ka Ke Vd tps C0 doses.
Proof.
  revert C0. induction doses as [| [dose d] rest IH]; intros C0; simpl;
    [reflexivity |].
  unfold C_dose. rewrite time_since_dose_shift.
  destruct (calculate_plasma_concentration dose F Ka Ke Vd
              (time_since_dose tps d)); cbn [bind]; [apply IH | reflexivity].
Qed.

Lemma simulate_shift (doses : list (R * datetime)) :
  simulate F Ka Ke Vd (map (Z.add k) tps) (map (shift_dose k) doses) =
  simulate F Ka Ke Vd tps doses.
Proof.
  unfold simulate. rewrite <- accumulate_shift. f_equal.
  unfold np_zeros_like. now rewrite map_map.
Qed.
End Shift.

Lemma streamlit_doses_from_ext (c1 c2 : clock) (es : list StreamlitApp.entry) :
  (forall j : nat, c1 j = c2 j) ->
  forall k : nat, StreamlitApp.doses_from c1 k es = StreamlitApp.doses_from c2 k es.
Proof.
  intros Hc. induction es as [| e es IH]; intros k; simpl; [reflexivity |].
  now rewrite Hc, IH.
Qed.

Lemma streamlit_doses_from_shift (today : date) (es : list StreamlitApp.entry) :
  forall k : nat,
    StreamlitApp.doses_from (same_day today) k es =
    map (shift_dose (today * us_per_day)%Z)
        (StreamlitApp.doses_from (same_day 0%Z) k es).
Proof.
  induction es as [| e es IH]; intros k; simpl; [reflexivity |].
  rewrite IH. f_equal. unfold shift_dose, same_day. simpl. f_equal.
  apply combine_day.
Qed.

Lemma kofeinator_doses_shift (k start : Z) (total servings : Z) (interval : R) :
  Kofeinator.doses (k + start)%Z total servings interval =
  map (shift_dose k) (Kofeinator.doses start total servings interval).
Proof.
  unfold Kofeinator.doses. rewrite map_map. apply map_ext. intros i.
  unfold shift_dose. simpl. f_equal. ring.
Qed.

Lemma streamlit_curve_ext (c1 c2 : clock) (p : Profile)
    (es : list StreamlitApp.entry) (H s : Z) :
  (forall j : nat, c1 j = c2 j) ->
  StreamlitApp.curve c1 p es H s = StreamlitApp.curve c2 p es H s.
Proof.
  intros Hc. unfold StreamlitApp.curve, StreamlitApp.doses.
  now rewrite (Hc 0%nat), (streamlit_doses_from_ext c1 c2 es Hc).
Qed.

Lemma streamlit_curve_day (today : date) (p : Profile)
    (es : list StreamlitApp.entry) (H s : Z) :
  StreamlitApp.curve (same_day today) p es H s
  = StreamlitApp.curve (same_day 0%Z) p es H s.
Proof.
  unfold StreamlitApp.curve. destruct (Ke p) as [ke | e]; cbn [bind];
    [| reflexivity].
  destruct (t_hours H s) as [th | e]; cbn [bind]; [| reflexivity].
  unfold StreamlitApp.simulation_start_time, StreamlitApp.doses.
  change (same_day today 0%nat) with today.
  change (same_day 0%Z 0%nat) with 0%Z.
  rewrite (combine_day today), time_points_shift, streamlit_doses_from_shift.
  apply simulate_shift.
Qed.

Lemma kofeinator_curve_day (today : date) (p : Profile) (mg servings : Z)
    (interval : R) (first : time) (H s : Z) :
  Kofeinator.curve today p mg servings interval first H s =
  Kofeinator.curve 0%Z p mg servings interval first H s.
Proof.
  unfold Kofeinator.curve. destruct (Ke p) as [ke | e]; cbn [bind];
    [| reflexivity].
  destruct (t_hours H s) as [th | e]; cbn [bind]; [| reflexivity].
  unfold Kofeinator.simulation_start_time.
  rewrite (combine_day today), time_points_shift, kofeinator_doses_shift.
  apply simulate_shift.
Qed.

(** ** Integer parts *)

Lemma Int_part_IZR (z : Z) : Int_part (IZR z) = z.
Proof. symmetry. apply Int_part_spec. lra. Qed.

Lemma round_half_even_IZR (z : Z) : round_half_even (IZR z) = z.
Proof.
  unfold round_half_even. rewrite Int_part_IZR.
  destruct (Rlt_dec (IZR z - IZR z) (1 / 2)) as [_ | N]; [reflexivity |].
  exfalso. apply N. lra.
Qed.

Lemma INR_to_nat (z : Z) : (0 <= z)%Z -> INR (Z.to_nat z) = IZR z.
Proof. intros Hz. rewrite INR_IZR_INZ, Z2Nat.id by assumption. reflexivity. Qed.

(** ** C5: the grid covers the horizon *)

(** C5.  For a horizon of 1 to 23 hours and a step of 1 to 60 minutes the
    grid is 0, s/60, 2·s/60, ... and its last point is at or beyond the
    horizon; it exceeds the horizon by less than two steps. *)
Theorem grid_covers_horizon (H s : Z) :
  (1 <= H <= 23)%Z -> (1 <= s <= 60)%Z ->
  exists (t_hours_ : list R) (n : nat),
    t_hours H s = Ok t_hours_ /\
    t_hours_ = map (fun i => INR i * (IZR s / 60)) (seq 0 (S n)) /\
    last t_hours_ 0 = INR n * (IZR s / 60) /\
    IZR H <= last t_hours_ 0 < IZR H + 2 * (IZR s / 60).
Proof.
  intros HH Hs. destruct (grid_last H s HH Hs) as (n & HL & Hlast & Hb).
  exists (grid H s), n. split; [now apply t_hours_ok |]. split; [| split].
  - rewrite <- HL. apply grid_seq.
  - exact Hlast.
  - now rewrite Hlast.
Qed.

Lemma grid_covers_horizon_witness :
  exists (t_hours_ : list R) (n : nat),
    t_hours 23 15 = Ok t_hours_ /\
    t_hours_ = map (fun i => INR i * (15 / 60)) (seq 0 (S n)) /\
    last t_hours_ 0 = INR n * (15 / 60) /\
    23 <= last t_hours_ 0 < 23 + 2 * (15 / 60).
Proof. apply (grid_covers_horizon 23 15); lia. Defined.

(** ** The first least element *)

(** Scanning the indices [a, a + m) with a current best [b] found among
    [lo, a): the result is least over [lo, a + m) and strictly below every
    earlier index. *)
Lemma min_from_seq (key : nat -> Z) (lo : nat) (m : nat) :
  forall a b : nat,
    (lo <= b < a)%nat ->
    (forall j, (lo <= j < a)%nat -> (key b <= key j)%Z) ->
    (forall j, (lo <= j < b)%nat -> (key b < key j)%Z) ->
    let r := min_from key b (seq a m) in
    (lo <= r < a + m)%nat /\
    (forall j, (lo <= j < a + m)%nat -> (key r <= key j)%Z) /\
    (forall j, (lo <= j < r)%nat -> (key r < key j)%Z).
Proof.
  induction m as [| m IH]; intros a b Hb Hle Hlt; simpl.
  - rewrite Nat.add_0_r. repeat split; try lia; assumption.
  - destruct (Z.ltb_spec (key a) (key b)) as [Hlt' | Hge].
    + destruct (IH (S a) a) as (Hr & Hall & Hfirst).
      * lia.
      * intros j Hj. destruct (Nat.eq_dec j a) as [-> | Hne]; [lia |].
        specialize (Hle j). lia.
      * intros j Hj. specialize (Hle j). lia.
      * repeat split; try lia.
        -- intros j Hj. apply Hall. lia.
        -- assumption.
    + destruct (IH (S a) b) as (Hr & Hall & Hfirst).
      * lia.
      * intros j Hj. destruct (Nat.eq_dec j a) as [-> | Hne]; [lia |].
        apply Hle. lia.
      * assumption.
      * repeat split; try lia.
        -- intros j Hj. apply Hall. lia.
        -- assumption.
Qed.

Lemma py_min_range (key : nat -> Z) (n : nat) :
  (0 < n)%nat ->
  exists i : nat,
    py_min key (seq 0 n) = Ok i /\ (i < n)%nat /\
    (forall j, (j < n)%nat -> (key i <= key j)%Z) /\
    (forall j, (j < i)%nat -> (key i < key j)%Z).
Proof.
  intros Hn. destruct n as [| n]; [lia |]. simpl.
  destruct (min_from_seq key 0 n 1 0) as (Hr & Hall & Hfirst).
  - lia.
  - intros j Hj. replace j with 0%nat by lia. lia.
  - intros j Hj. lia.
  - eexists. split; [reflexivity |]. repeat split.
    + lia.
    + intros j Hj. apply Hall. lia.
    + intros j Hj. apply Hfirst. lia.
Qed.

Lemma exceeds_sleep_threshold_iff (c : R) :
  exceeds_sleep_threshold c = true <-> 1 < c.
Proof.
  unfold exceeds_sleep_threshold.
  destruct (Rlt_dec 1.0 c) as [Hc | Hc]; split; intros H;
    try reflexivity; try discriminate; lra.
Qed.

(** ** C6: the bedtime query *)

(** C6.  On a non-empty list of time points with a curve aligned to it, the
    bedtime query picks the index whose time point is nearest to the bedtime
    (every earlier index is strictly farther, so ties go to the earlier
    index), returns the curve value there, and flags it exactly when it is
    above 1 mg/L; on an all-zero curve it returns 0 and no flag. *)
Theorem bedtime_query_nearest (tps : list datetime) (C : list R)
    (bedtime : datetime) :
  tps <> [] -> List.length C = List.length tps ->
  exists (idx : nat) (c : R),
    idx_bedtime tps bedtime = Ok idx /\
    (idx < List.length tps)%nat /\
    (forall j, (j < List.length tps)%nat ->
       (Z.abs (nth idx tps 0 - bedtime) <= Z.abs (nth j tps 0 - bedtime))%Z) /\
    (forall j, (j < idx)%nat ->
       (Z.abs (nth idx tps 0 - bedtime) < Z.abs (nth j tps 0 - bedtime))%Z) /\
    nth_error C idx = Some c /\
    bedtime_query tps C bedtime = Ok (c, exceeds_sleep_threshold c) /\
    (exceeds_sleep_threshold c = true <-> 1 < c) /\
    (Forall (fun x => x = 0) C -> bedtime_query tps C bedtime = Ok (0, false)).
Proof.
  intros Hne HL.
  assert (Hn : (0 < List.length tps)%nat)
    by (destruct tps; [contradiction | simpl; lia]).
  destruct (py_min_range
              (fun i => Z.abs (nth i tps 0%Z - bedtime)) _ Hn)
    as (idx & Hidx & Hlt & Hall & Hfirst).
  assert (Hc : exists c, nth_error C idx = Some c).
  { destruct (nth_error C idx) as [c |] eqn:E; [now exists c |].
    apply nth_error_None in E. lia. }
  destruct Hc as [c Hc].
  assert (HQ : bedtime_query tps C bedtime = Ok (c, exceeds_sleep_threshold c)).
  { unfold bedtime_query, idx_bedtime. rewrite Hidx. cbn [bind].
    unfold getitem. rewrite Hc. reflexivity. }
  exists idx, c. repeat split; try assumption.
  - apply exceeds_sleep_threshold_iff.
  - apply exceeds_sleep_threshold_iff.
  - intros Hz. rewrite HQ.
    assert (c = 0).
    { rewrite Forall_forall in Hz. apply Hz. eapply nth_error_In. exact Hc. }
    subst c. do 2 f_equal. unfold exceeds_sleep_threshold.
    destruct (Rlt_dec 1.0 0) as [Hbad | _]; [lra | reflexivity].
Qed.

Lemma bedtime_query_nearest_witness :
  exists (idx : nat) (c : R),
    idx_bedtime [0; 10; 20]%Z 5%Z = Ok idx /\
    (idx < 3)%nat /\
    (forall j, (j < 3)%nat ->
       (Z.abs (nth idx [0; 10; 20] 0 - 5) <= Z.abs (nth j [0; 10; 20] 0 - 5))%Z) /\
    (forall j, (j < idx)%nat ->
       (Z.abs (nth idx [0; 10; 20] 0 - 5) < Z.abs (nth j [0; 10; 20] 0 - 5))%Z) /\
    nth_error [0; 2; 0] idx = Some c /\
    bedtime_query [0; 10; 20]%Z [0; 2; 0] 5%Z = Ok (c, exceeds_sleep_threshold c) /\
    (exceeds_sleep_threshold c = true <-> 1 < c) /\
    (Forall (fun x => x = 0) [0; 2; 0] ->
     bedtime_query [0; 10; 20]%Z [0; 2; 0] 5%Z = Ok (0, false)).
Proof.
  apply (bedtime_query_nearest [0; 10; 20]%Z [0; 2; 0] 5%Z);
    [discriminate | reflexivity].
Defined.

(** A tie between two grid points goes to the earlier one. *)
Example idx_bedtime_tie : idx_bedtime [0; 10; 20]%Z 5%Z = Ok 0%nat.
Proof. reflexivity. Qed.

(** ** C8: an unknown coffee type *)

Lemma dict_get_default {V : Type} (d : list (string * V)) (key : string)
    (default : V) :
  ~ In key (StreamlitApp.keys d) -> StreamlitApp.dict_get d key default = default.
Proof.
  induction d as [| [k v] d IH]; simpl; intros Hn; [reflexivity |].
  destruct (String.eqb_spec k key) as [-> | Hne].
  - exfalso. apply Hn. now left.
  - apply IH. intros Hin. apply Hn. now right.
Qed.

(** C8, as stated, fails: a key that is not on the menu raises nothing;
    the entry is appended with a dose of 0 mg. *)
Lemma unknown_coffee_type_no_error :
  StreamlitApp.add_entry [] "Chai latte" 2 (mk_time 8 0) =
  Ok [ {| StreamlitApp.type := "Chai latte"; StreamlitApp.dose := 0;
          StreamlitApp.time_ := mk_time 8 0 |} ].
Proof. reflexivity. Qed.

(** C8, amended.  For a key that is not on the menu the lookup falls back
    to 0 mg per serving: the add operation raises no error and appends an
    entry with that key and a dose of 0 mg. *)
Theorem unknown_coffee_type_zero_dose (coffee_entries : list StreamlitApp.entry)
    (coffee_choice : string) (servings : Z) (dose_time : time) :
  ~ In coffee_choice (StreamlitApp.keys StreamlitApp.coffee_options) ->
  StreamlitApp.add_entry coffee_entries coffee_choice servings dose_time =
  Ok (coffee_entries ++
      [ {| StreamlitApp.type := coffee_choice; StreamlitApp.dose := 0;
           StreamlitApp.time_ := dose_time |} ]).
Proof.
  intros Hn. unfold StreamlitApp.add_entry.
  rewrite (dict_get_default _ _ _ Hn). reflexivity.
Qed.

Lemma unknown_coffee_type_zero_dose_witness :
  StreamlitApp.add_entry [drip_at_8] "Chai latte" 3 (mk_time 9 30) =
  Ok ([drip_at_8] ++
      [ {| StreamlitApp.type := "Chai latte"; StreamlitApp.dose := 0;
           StreamlitApp.time_ := mk_time 9 30 |} ]).
Proof.
  apply (unknown_coffee_type_zero_dose [drip_at_8] "Chai latte" 3 (mk_time 9 30)).
  simpl. intros H.
  repeat (destruct H as [H | H]; [discriminate H |]). exact H.
Defined.

(** A key of the menu gives its caffeine content times the servings. *)
Example add_drip :
  StreamlitApp.add_entry [] "Drip (240 ml)" 2 (mk_time 8 0) =
  Ok [ {| StreamlitApp.type := "Drip (240 ml)"; StreamlitApp.dose := 190;
          StreamlitApp.time_ := mk_time 8 0 |} ].
Proof. reflexivity. Qed.

(** The custom entry of the menu carries [None], which cannot be
    multiplied. *)
Example add_custom_raises :
  StreamlitApp.add_entry [] "Vlastní dávka" 1 (mk_time 8 0) = Raise TypeError.
Proof. reflexivity. Qed.

(** ** Bounds on the exponential *)

Lemma exp_term_decreasing (x : R) : 0 <= x <= 1 -> Un_decreasing (exp_term x).
Proof.
  intros Hx n. unfold exp_term.
  rewrite fact_simpl, mult_INR. simpl pow.
  pose proof (INR_fact_lt_0 n) as Hf.
  pose proof (pow_le x n (proj1 Hx)) as Hp.
  assert (Hn : 1 <= INR (S n)) by (rewrite S_INR; pose proof (pos_INR n); lra).
  unfold Rdiv. rewrite Rinv_mult.
  assert (Hi : 0 < / INR (fact n)) by now apply Rinv_0_lt_compat.
  assert (Hs : 0 < / INR (S n) <= 1).
  { split; [apply Rinv_0_lt_compat; lra |].
    rewrite <- Rinv_1. apply Rinv_le_contravar; lra. }
  assert (Hxs : x * / INR (S n) <= 1).
  { replace 1 with (1 * 1) by ring. apply Rmult_le_compat; lra. }
  replace (x * x ^ n * (/ INR (S n) * / INR (fact n)))
    with ((x ^ n * / INR (fact n)) * (x * / INR (S n))) by ring.
  rewrite <- (Rmult_1_r (x ^ n * / INR (fact n))) at 2.
  apply Rmult_le_compat_l; [| exact Hxs].
  apply Rmult_le_pos; lra.
Qed.

Lemma exp_opp_alternating (x : R) :
  Un_cv (fun N => sum_f_R0 (tg_alt (exp_term x)) N) (exp (- x)).
Proof.
  unfold exp. destruct (exist_exp (- x)) as [l Hl]. simpl.
  intros eps Heps. destruct (Hl eps Heps) as [N HN].
  exists N. intros n Hn. specialize (HN n Hn).
  replace (sum_f_R0 (tg_alt (exp_term x)) n)
    with (sum_f_R0 (fun i => / INR (fact i) * (- x) ^ i) n); [exact HN |].
  apply sum_eq. intros i _. unfold tg_alt, exp_term.
  replace (- x) with (-1 * x) by ring. rewrite Rpow_mult_distr.
  unfold Rdiv. ring.
Qed.

Lemma exp_opp_bounds (x : R) :
  0 <= x <= 1 ->
  1 - x + x ^ 2 / 2 - x ^ 3 / 6 + x ^ 4 / 24 - x ^ 5 / 120
  <= exp (- x) <=
  1 - x + x ^ 2 / 2 - x ^ 3 / 6 + x ^ 4 / 24.
Proof.
  intros Hx.
  pose proof (alternated_series_ineq (exp_term x) (exp (- x)) 2
                (exp_term_decreasing x Hx) (cv_speed_pow_fact x)
                (exp_opp_alternating x)) as [Hlo Hhi].
  unfold tg_alt, exp_term in Hlo, Hhi. simpl in Hlo, Hhi.
  split; lra.
Qed.

Lemma exp_mult_nat (x : R) (n : nat) : exp (INR n * x) = exp x ^ n.
Proof.
  induction n as [| n IH].
  - simpl. rewrite Rmult_0_l. apply exp_0.
  - rewrite S_INR, Rmult_plus_distr_r, Rmult_1_l, exp_plus, IH. simpl. ring.
Qed.

(** [e^(-0.1)] to seven decimals. *)
Lemma exp_tenth_bounds : 0.90483741 <= exp (- (0.1)) <= 0.9048375.
Proof.
  pose proof (exp_opp_bounds 0.1) as [Hlo Hhi]; [lra |].
  split; lra.
Qed.

(** The model value one hour after a dose of 95 mg with Vd = 42, Ka = 1.2
    and Ke = 0.1. *)
Lemma one_hour_value :
  1.4895 < 1.0 * 95 * 1.2 / (42 * (1.2 - 0.1))
           * (exp (- (0.1) * 1) - exp (- (1.2) * 1)) < 1.4896.
Proof.
  pose proof exp_tenth_bounds as [Hlo Hhi].
  set (a := exp (- (0.1))) in *.
  assert (Ea : exp (- (0.1) * 1) = a) by (unfold a; f_equal; lra).
  assert (Eb : exp (- (1.2) * 1) = a ^ 12).
  { unfold a. rewrite <- exp_mult_nat. f_equal. simpl. lra. }
  rewrite Ea, Eb.
  assert (Hp1 : 0.90483741 ^ 12 <= a ^ 12) by (apply pow_incr; lra).
  assert (Hp2 : a ^ 12 <= 0.9048375 ^ 12) by (apply pow_incr; lra).
  assert (Eq : 1.0 * 95 * 1.2 / (42 * (1.2 - 0.1)) = 1140 / 462) by lra.
  rewrite Eq. split; lra.
Qed.

(** ** Time points of the grid *)

Lemma timedelta_hours_grid (i : nat) (s : Z) :
  timedelta_hours (INR i * (IZR s / 60)) = (Z.of_nat i * s * 60000000)%Z.
Proof.
  unfold timedelta_hours.
  replace (INR i * (IZR s / 60) * IZR us_per_hour)
    with (IZR (Z.of_nat i * s * 60000000)).
  - apply round_half_even_IZR.
  - rewrite !mult_IZR, <- INR_IZR_INZ.
    change (IZR us_per_hour) with 3600000000. field.
Qed.

Lemma timedelta_hours_zero : timedelta_hours (INR 0 * 0) = 0%Z.
Proof.
  unfold timedelta_hours.
  replace (INR 0 * 0 * IZR us_per_hour) with (IZR 0) by (simpl; ring).
  apply round_half_even_IZR.
Qed.

Lemma nth_map_in_range {A B : Type} (f : A -> B) (l : list A) (i : nat)
    (da : A) (db : B) :
  (i < List.length l)%nat -> nth i (map f l) db = f (nth i l da).
Proof.
  intros Hi. rewrite (nth_indep _ db (f da)) by now rewrite length_map.
  apply map_nth.
Qed.

Section GridTimes.
Variables H s : Z.
Hypothesis H_range : (1 <= H <= 23)%Z.
Hypothesis s_range : (1 <= s <= 60)%Z.
Variable start : datetime.

(** Converting the grid to [datetime] values loses nothing: point [i]
    lies [i * s] minutes after the start. *)
Lemma time_points_nth (i : nat) :
  (i < List.length (grid H s))%nat ->
  nth i (time_points start (grid H s)) 0%Z
  = (start + Z.of_nat i * s * 60000000)%Z.
Proof.
  intros Hi. unfold time_points.
  rewrite (nth_map_in_range _ _ _ 0) by assumption.
  rewrite grid_nth by assumption.
  now rewrite timedelta_hours_grid.
Qed.

(** For a dose taken at the simulation start, the time since the dose
    is the grid offset itself. *)
Lemma time_since_dose_start (i : nat) :
  (i < List.length (grid H s))%nat ->
  nth i (time_since_dose (time_points start (grid H s)) start) 0
  = INR i * (IZR s / 60).
Proof.
  intros Hi. unfold time_since_dose, np_maximum.
  rewrite (nth_map_in_range _ _ _ 0)
    by (unfold time_points; now rewrite !length_map).
  rewrite (nth_map_in_range _ _ _ 0%Z)
    by (unfold time_points; now rewrite length_map).
  rewrite time_points_nth by assumption.
  replace (start + Z.of_nat i * s * 60000000 - start)%Z
    with (Z.of_nat i * s * 60000000)%Z by (unfold datetime in *; ring).
  unfold total_seconds. rewrite !mult_IZR, <- INR_IZR_INZ.
  change (IZR us_per_second) with 1000000.
  replace (INR i * IZR s * 60000000 / 1000000 / 3600)
    with (INR i * (IZR s / 60)) by field.
  apply Rmax_left.
  apply Rmult_le_pos; [apply pos_INR |].
  destruct s_range as [Hs _]. apply IZR_le in Hs.
  apply Rlt_le, Rdiv_lt_0_compat; lra.
Qed.
End GridTimes.

(** With a quarter-hour step over 23 hours, one hour is grid point 4. *)
Lemma quarter_hour_grid :
  (4 < List.length (grid 23 15))%nat /\ nth 4 (grid 23 15) 0 = 1.
Proof.
  assert (HH : (1 <= 23 <= 23)%Z) by lia.
  assert (Hs : (1 <= 15 <= 60)%Z) by lia.
  destruct (grid_last 23 15 HH Hs) as (n & HL & _ & Hlo & _).
  assert (Hn : (4 < S n)%nat).
  { destruct (Nat.le_gt_cases n 3) as [Hle | Hgt]; [| lia].
    apply le_INR in Hle. simpl in Hle. lra. }
  rewrite HL. split; [exact Hn |].
  rewrite grid_nth by (rewrite HL; exact Hn).
  simpl. lra.
Qed.

(** ** C2: the reference scenario *)

Lemma scenario_parameters :
  Vd muz_70 = 42 /\ CL muz_70 = 4.2 /\ Ke muz_70 = Ok 0.1 /\ Ka = 1.2.
Proof.
  split; [| split; [| split]].
  - unfold Vd, Vd_standard. simpl. lra.
  - unfold CL, CL_standard. simpl. lra.
  - rewrite Ke_closed_form by (unfold valid_profile; simpl; lia).
    f_equal. simpl. lra.
  - reflexivity.
Qed.

(** The curve of kofeinator.py for one Drip coffee (95 mg) at the start:
    zero at the start, between 1.4895 and 1.4896 mg/L one hour later. *)
Lemma scenario_curve (today : date) (first_dose_time : time) :
  exists C : list R,
    Kofeinator.curve today muz_70 95 1 0 first_dose_time 23 15 = Ok C /\
    nth 0 C 0 = 0 /\
    1.4895 < nth 4 C 0 < 1.4896.
Proof.
  destruct scenario_parameters as (EV & _ & EK & EKa).
  destruct quarter_hour_grid as [H4 _].
  assert (HH : (1 <= 23 <= 23)%Z) by lia.
  assert (Hs : (1 <= 15 <= 60)%Z) by lia.
  unfold Kofeinator.curve. rewrite EK, (t_hours_ok 23 15 Hs). cbn [bind].
  set (start := Kofeinator.simulation_start_time today first_dose_time).
  set (tps := time_points start (grid 23 15)).
  assert (Ed : Kofeinator.doses start (95 * 1) 1 0 = [(95, start)]).
  { unfold Kofeinator.doses.
    change (Z.to_nat 1) with 1%nat. change (95 * 1)%Z with 95%Z.
    cbn [seq map]. rewrite timedelta_hours_zero.
    do 2 f_equal. unfold datetime in *. ring. }
  rewrite Ed, simulate_single. unfold C_dose.
  rewrite EV. unfold F, Ka.
  rewrite calculate_plasma_concentration_ok by lra.
  eexists. split; [reflexivity |].
  assert (HLt : forall i, (i < List.length (grid 23 15))%nat ->
                          (i < List.length (time_since_dose tps start))%nat).
  { intros i Hi. rewrite time_since_dose_length. unfold tps, time_points.
    now rewrite length_map. }
  split.
  - rewrite (nth_map_in_range _ _ _ 0) by (apply HLt; lia).
    unfold tps.
    rewrite time_since_dose_start by lia.
    simpl. rewrite !Rmult_0_l, !Rmult_0_r, exp_0.
    rewrite Rminus_diag, Rmult_0_r. apply Rmax_left. lra.
  - rewrite (nth_map_in_range _ _ _ 0) by (apply HLt; lia).
    unfold tps.
    rewrite time_since_dose_start by lia.
    replace (INR 4 * (15 / 60)) with 1 by (simpl; lra).
    pose proof one_hour_value as [Hlo Hhi].
    rewrite Rmax_left by lra. split; assumption.
Qed.

(** C2, as stated, fails at its last figure: one hour after the dose the
    curve is not within half a unit of the last decimal of 1.52 mg/L. *)
Lemma scenario_not_1_52 :
  ~ (exists C : list R,
       Kofeinator.curve 0%Z muz_70 95 1 0 (mk_time 8 0) 23 15 = Ok C /\
       Spec.approx2 (nth 4 C 0) 1.52).
Proof.
  intros (C & HC & Happ).
  destruct (scenario_curve 0%Z (mk_time 8 0)) as (C' & HC' & _ & _ & Hhi).
  rewrite HC in HC'. injection HC' as <-.
  unfold Spec.approx2 in Happ.
  rewrite Rabs_left in Happ by lra. lra.
Qed.

(** C2, amended.  For 70 kg, male, non-smoker, normal liver function and
    normal metabolism: Vd = 42 L, CL = 4.2 L/hr, Ke = 0.1 and Ka = 1.2 per
    hour; a single 95 mg dose at the start gives a concentration of 0 at the
    start and of about 1.49 mg/L (between 1.4895 and 1.4896) one hour
    later. *)
Theorem reference_scenario (today : date) (first_dose_time : time) :
  Vd muz_70 = 42 /\ CL muz_70 = 4.2 /\ Ke muz_70 = Ok 0.1 /\ Ka = 1.2 /\
  (exists t_hours_ : list R,
     t_hours 23 15 = Ok t_hours_ /\ nth 4 t_hours_ 0 = 1) /\
  exists C : list R,
    Kofeinator.curve today muz_70 95 1 0 first_dose_time 23 15 = Ok C /\
    nth 0 C 0 = 0 /\
    1.4895 < nth 4 C 0 < 1.4896 /\
    Spec.approx2 (nth 4 C 0) 1.49.
Proof.
  destruct scenario_parameters as (EV & EC & EK & EKa).
  repeat (split; [assumption |]).
  split.
  { exists (grid 23 15). split; [apply t_hours_ok; lia | apply quarter_hour_grid]. }
  destruct (scenario_curve today first_dose_time) as (C & HC & H0 & Hlo & Hhi).
  exists C. split; [exact HC |]. split; [exact H0 |]. split; [now split |].
  unfold Spec.approx2. apply Rabs_le. lra.
Qed.

(** * Further properties of the code *)

(** ** The model formula *)

Lemma exp_le_mono (x y : R) : x <= y -> exp x <= exp y.
Proof.
  intros [Hlt | ->]; [left; now apply exp_increasing | right; reflexivity].
Qed.

Lemma model_value_nonneg (dose F Ka Ke Vd tau : R) :
  0 < Vd -> 0 <= F * dose * Ka -> Ka <> Ke -> 0 <= tau ->
  0 <= model_value dose F Ka Ke Vd tau.
Proof.
  intros HV Hn Hne Ht. unfold model_value.
  destruct (Rlt_le_dec Ke Ka) as [Hlt | Hge].
  - apply Rmult_le_pos.
    + apply Rle_mult_inv_pos; [exact Hn | apply Rmult_lt_0_compat; lra].
    + assert (exp (- Ka * tau) <= exp (- Ke * tau)); [| lra].
      apply exp_le_mono. nra.
  - assert (HKe : Ka < Ke) by lra.
    replace (F * dose * Ka / (Vd * (Ka - Ke))
             * (exp (- Ke * tau) - exp (- Ka * tau)))
      with (F * dose * Ka / (Vd * (Ke - Ka))
            * (exp (- Ka * tau) - exp (- Ke * tau))).
    + apply Rmult_le_pos.
      * apply Rle_mult_inv_pos; [exact Hn | apply Rmult_lt_0_compat; lra].
      * assert (exp (- Ke * tau) <= exp (- Ka * tau)); [| lra].
        apply exp_le_mono. nra.
    + field. split; lra.
Qed.

(** The chord inequality of the exponential that bounds the model value. *)
Lemma exp_chord (Ka Ke tau : R) :
  0 <= Ke -> Ke < Ka ->
  Ka * (exp (- Ke * tau) - exp (- Ka * tau))
  <= (Ka - Ke) * (1 - exp (- Ka * tau)).
Proof.
  intros HKe HKa.
  set (x := - Ke * tau). set (y := - Ka * tau).
  pose proof (exp_pos x) as Hx.
  assert (Hy : exp x * (1 + (y - x)) <= exp y).
  { replace y with (x + (y - x)) at 2 by ring. rewrite exp_plus.
    apply Rmult_le_compat_l; [lra | apply exp_ineq1_le]. }
  assert (H0 : exp x * (1 + (0 - x)) <= 1).
  { rewrite <- exp_0 at 2. replace 0 with (x + (0 - x)) at 2 by ring.
    rewrite exp_plus.
    apply Rmult_le_compat_l; [lra | apply exp_ineq1_le]. }
  assert (Hmix : Ke * (exp x * (1 + (y - x)))
                 + (Ka - Ke) * (exp x * (1 + (0 - x)))
                 <= Ke * exp y + (Ka - Ke) * 1).
  { apply Rplus_le_compat; apply Rmult_le_compat_l; lra. }
  replace (Ke * (exp x * (1 + (y - x))) + (Ka - Ke) * (exp x * (1 + (0 - x))))
    with (Ka * exp x) in Hmix by (unfold x, y; ring).
  lra.
Qed.

Lemma model_value_bound (dose F Ka Ke Vd tau : R) :
  0 < Vd -> 0 <= F * dose -> 0 <= Ke -> Ke < Ka ->
  model_value dose F Ka Ke Vd tau
  <= F * dose / Vd * (1 - exp (- Ka * tau)).
Proof.
  intros HV Hn HKe HKa. unfold model_value.
  pose proof (exp_chord Ka Ke tau HKe HKa) as Hc.
  replace (F * dose * Ka / (Vd * (Ka - Ke))
           * (exp (- Ke * tau) - exp (- Ka * tau)))
    with (F * dose / Vd
          * (Ka * (exp (- Ke * tau) - exp (- Ka * tau)) / (Ka - Ke)))
    by (field; split; lra).
  apply Rmult_le_compat_l.
  - apply Rle_mult_inv_pos; lra.
  - apply (Rmult_le_reg_r (Ka - Ke)); [lra |].
    unfold Rdiv. rewrite Rmult_assoc, Rinv_l by lra. lra.
Qed.

(** X1.  With a positive volume, a non-negative numerator, distinct rate
    constants and non-negative times the model formula is itself never
    negative: the clamp [np.maximum(C, 0)] leaves every value as it is. *)
Theorem clamp_inactive (dose F Ka Ke Vd : R) (t : list R) :
  0 < Vd -> 0 <= F * dose * Ka -> Ka <> Ke ->
  Forall (fun ti => 0 <= ti) t ->
  calculate_plasma_concentration dose F Ka Ke Vd t
  = Ok (map (model_value dose F Ka Ke Vd) t).
Proof.
  intros HV Hn Hne Ht.
  rewrite calculate_plasma_concentration_ok
    by (apply Rmult_integral_contrapositive_currified; lra).
  f_equal. apply map_ext_in. intros ti Hin.
  rewrite Forall_forall in Ht.
  apply Rmax_left.
  apply (model_value_nonneg dose F Ka Ke Vd ti); auto.
Qed.

Lemma clamp_inactive_witness :
  calculate_plasma_concentration 95 1 1.2 0.1 42 [0; 1; 2.5]
  = Ok (map (model_value 95 1 1.2 0.1 42) [0; 1; 2.5]).
Proof.
  apply (clamp_inactive 95 1 1.2 0.1 42 [0; 1; 2.5]); try lra.
  repeat constructor; lra.
Defined.

Lemma dose_curve_bounded_aux (F Ka Ke Vd : R) (tps : list datetime)
    (dose : R) (dose_time : datetime) :
  0 < Vd -> 0 <= F * dose -> 0 <= Ke -> Ke < Ka ->
  exists C : list R,
    C_dose F Ka Ke Vd tps dose dose_time = Ok C /\
    List.length C = List.length tps /\
    Forall (fun c => 0 <= c <= F * dose / Vd) C.
Proof.
  intros HV Hn HKe HKa.
  assert (Hd : Vd * (Ka - Ke) <> 0)
    by (apply Rmult_integral_contrapositive_currified; lra).
  destruct (C_dose_total F Ka Ke Vd tps dose dose_time Hd) as [C HC].
  exists C. split; [exact HC |].
  destruct (C_dose_shape _ _ _ _ _ _ _ _ HC) as [HL Hnn].
  split; [exact HL |].
  unfold C_dose in HC. rewrite calculate_plasma_concentration_ok in HC by exact Hd.
  injection HC as <-.
  apply Forall_forall. intros c Hin.
  apply in_map_iff in Hin as (tau & <- & _).
  split; [apply Rmax_r |].
  assert (Hb : 0 <= F * dose / Vd) by (apply Rle_mult_inv_pos; lra).
  apply Rmax_lub; [| exact Hb].
  pose proof (model_value_bound dose F Ka Ke Vd tau HV Hn HKe HKa) as Hm.
  unfold model_value in Hm.
  pose proof (exp_pos (- Ka * tau)) as He.
  assert (F * dose / Vd * (1 - exp (- Ka * tau)) <= F * dose / Vd); [| lra].
  rewrite <- (Rmult_1_r (F * dose / Vd)) at 2.
  apply Rmult_le_compat_l; lra.
Qed.

(** X2.  When the elimination constant is non-negative and below the
    absorption constant, the curve of one dose stays between 0 and
    F·dose/Vd, the concentration of the whole dose in the distribution
    volume. *)
Theorem dose_curve_bounded (F Ka Ke Vd : R) (tps : list datetime)
    (dose : R) (dose_time : datetime) :
  0 < Vd -> 0 <= F * dose -> 0 <= Ke -> Ke < Ka ->
  exists C : list R,
    C_dose F Ka Ke Vd tps dose dose_time = Ok C /\
    List.length C = List.length tps /\
    Forall (fun c => 0 <= c <= F * dose / Vd) C.
Proof. apply dose_curve_bounded_aux. Qed.

Lemma dose_curve_bounded_witness :
  exists C : list R,
    C_dose 1 1.2 0.1 42 [0; 3600000000]%Z 95 0%Z = Ok C /\
    List.length C = 2%nat /\
    Forall (fun c => 0 <= c <= 1 * 95 / 42) C.
Proof.
  apply (dose_curve_bounded 1 1.2 0.1 42 [0; 3600000000]%Z 95 0%Z); lra.
Defined.

(** X3.  The model function is linear in the dose: multiplying the dose by
    a factor k >= 0 multiplies every value of the curve by k (and the call
    raises for the one dose exactly when it raises for the other). *)
Theorem dose_scaling (k dose F Ka Ke Vd : R) (t : list R) :
  0 <= k ->
  calculate_plasma_concentration (k * dose) F Ka Ke Vd t
  = (C <- calculate_plasma_concentration dose F Ka Ke Vd t ;;
     Ok (map (Rmult k) C)).
Proof.
  intros Hk. unfold calculate_plasma_concentration, truediv.
  destruct (Req_dec_T (Vd * (Ka - Ke)) 0) as [E | N]; cbn [bind];
    [reflexivity |].
  f_equal. unfold np_maximum. rewrite !map_map. apply map_ext. intros ti.
  set (e := exp (- Ke * ti) - exp (- Ka * ti)).
  replace (F * (k * dose) * Ka / (Vd * (Ka - Ke)) * e)
    with (k * (F * dose * Ka / (Vd * (Ka - Ke)) * e))
    by (unfold Rdiv; ring).
  set (v := F * dose * Ka / (Vd * (Ka - Ke)) * e).
  destruct (Rle_dec 0 v) as [Hv | Hv].
  - rewrite (Rmax_left v 0) by exact Hv.
    apply Rmax_left. now apply Rmult_le_pos.
  - rewrite (Rmax_right v 0) by lra. rewrite Rmult_0_r.
    apply Rmax_right.
    replace 0 with (k * 0) by ring. apply Rmult_le_compat_l; lra.
Qed.

Lemma dose_scaling_witness :
  calculate_plasma_concentration (2 * 95) 1 1.2 0.1 42 [0; 1]
  = (C <- calculate_plasma_concentration 95 1 1.2 0.1 42 [0; 1] ;;
     Ok (map (Rmult 2) C)).
Proof. apply (dose_scaling 2 95 1 1.2 0.1 42 [0; 1]). lra. Defined.

(** ** The dose loop on whole schedules *)

Lemma np_add_comm (a b : list R) : np_add a b = np_add b a.
Proof.
  revert b. induction a as [| x a IH]; intros [| y b]; simpl; try reflexivity.
  rewrite IH. f_equal. ring.
Qed.

Lemma np_add_assoc (a b c : list R) :
  np_add (np_add a b) c = np_add a (np_add b c).
Proof.
  revert b c. induction a as [| x a IH]; intros [| y b] [| z c]; simpl;
    try reflexivity.
  rewrite IH. f_equal. ring.
Qed.

Lemma np_add_zeros_r {A : Type} (z : list A) (c : list R) :
  List.length z = List.length c -> np_add c (np_zeros_like z) = c.
Proof. intros Hl. rewrite np_add_comm. now apply np_add_zeros_l. Qed.

Section Schedules.
Variables (F Ka Ke Vd : R).
Variable tps : list datetime.

(** The clamped curve of one dose, as a total function. *)
Let dose_curve (d : R * datetime) : list R :=
  map (fun ti => Rmax (model_value (fst d) F Ka Ke Vd ti) 0)
      (time_since_dose tps (snd d)).

Lemma dose_curve_length (d : R * datetime) :
  List.length (dose_curve d) = List.length tps.
Proof. unfold dose_curve. rewrite length_map. apply time_since_dose_length. Qed.

Lemma C_dose_closed_form (dose : R) (d : datetime) :
  Vd * (Ka - Ke) <> 0 ->
  C_dose F Ka Ke Vd tps dose d = Ok (dose_curve (dose, d)).
Proof.
  intros Hd. unfold C_dose.
  now rewrite calculate_plasma_concentration_ok.
Qed.

Lemma accumulate_closed_form (doses : list (R * datetime)) (C0 : list R) :
  Vd * (Ka - Ke) <> 0 ->
  accumulate F Ka Ke Vd tps C0 doses
  = Ok (fold_left np_add (map dose_curve doses) C0).
Proof.
  intros Hd. revert C0.
  induction doses as [| [dose d] rest IH]; intros C0; simpl; [reflexivity |].
  rewrite C_dose_closed_form by exact Hd. cbn [bind]. apply IH.
Qed.

Lemma accumulate_zero_divisor (doses : list (R * datetime)) (C0 : list R) :
  Vd * (Ka - Ke) = 0 ->
  accumulate F Ka Ke Vd tps C0 doses
  = match doses with [] => Ok C0 | _ :: _ => Raise ZeroDivisionError end.
Proof.
  intros Hd. destruct doses as [| [dose d] rest]; simpl; [reflexivity |].
  now rewrite C_dose_raise.
Qed.

Lemma fold_np_add_shift (l : list (list R)) (a b : list R) :
  fold_left np_add l (np_add a b) = np_add a (fold_left np_add l b).
Proof.
  revert a b. induction l as [| c l IH]; intros a b; simpl; [reflexivity |].
  rewrite np_add_assoc. apply IH.
Qed.

Lemma fold_np_add_length (l : list (list R)) (a : list R) :
  Forall (fun c => List.length c = List.length a) l ->
  List.length (fold_left np_add l a) = List.length a.
Proof.
  revert a. induction l as [| c l IH]; intros a Hl; simpl; [reflexivity |].
  inversion Hl as [| ? ? Hc Hl']; subst.
  assert (Ha : List.length (np_add a c) = List.length a)
    by (apply np_add_length; congruence).
  rewrite IH; [exact Ha |].
  eapply Forall_impl; [| exact Hl']. intros c' Hc'. simpl in Hc'. congruence.
Qed.

Lemma dose_curves_length (doses : list (R * datetime)) :
  Forall (fun c => List.length c = List.length (np_zeros_like tps))
         (map dose_curve doses).
Proof.
  apply Forall_forall. intros c Hin.
  apply in_map_iff in Hin as (d & <- & _).
  rewrite dose_curve_length. unfold np_zeros_like. now rewrite length_map.
Qed.

(** X4.  The loop over a schedule that is the concatenation of two
    schedules returns the point-by-point sum of the two curves, and raises
    exactly when one of the two runs raises. *)
Theorem simulate_app (doses1 doses2 : list (R * datetime)) :
  simulate F Ka Ke Vd tps (doses1 ++ doses2) =
  (C1 <- simulate F Ka Ke Vd tps doses1 ;;
   C2 <- simulate F Ka Ke Vd tps doses2 ;;
   Ok (np_add C1 C2)).
Proof.
  unfold simulate.
  destruct (Req_dec_T (Vd * (Ka - Ke)) 0) as [E | N].
  - rewrite !accumulate_zero_divisor by exact E.
    destruct doses1 as [| d1 r1]; simpl; [| reflexivity].
    destruct doses2 as [| d2 r2]; simpl; [| reflexivity].
    f_equal. symmetry. apply np_add_zeros_l.
    unfold np_zeros_like. now rewrite length_map.
  - rewrite !accumulate_closed_form by exact N. cbn [bind]. f_equal.
    rewrite map_app, fold_left_app.
    set (Z0 := np_zeros_like tps).
    set (A := fold_left np_add (map dose_curve doses1) Z0).
    assert (HA : List.length A = List.length Z0)
      by (apply fold_np_add_length, dose_curves_length).
    rewrite <- (np_add_zeros_r tps A) at 1
      by (rewrite HA; unfold Z0, np_zeros_like; now rewrite length_map).
    apply fold_np_add_shift.
Qed.

Lemma fold_np_add_perm (l l' : list (list R)) :
  Permutation l l' ->
  forall a, fold_left np_add l a = fold_left np_add l' a.
Proof.
  induction 1 as [| x l l' _ IH | x y l | l l' l'' _ IH1 _ IH2]; intros a;
    simpl.
  - reflexivity.
  - apply IH.
  - f_equal. rewrite !np_add_assoc. f_equal. apply np_add_comm.
  - now rewrite IH1.
Qed.

(** X5.  The curve does not depend on the order in which the doses were
    entered: two schedules with the same doses in a different order give
    the same result. *)
Theorem simulate_permutation (doses doses' : list (R * datetime)) :
  Permutation doses doses' ->
  simulate F Ka Ke Vd tps doses = simulate F Ka Ke Vd tps doses'.
Proof.
  intros HP. unfold simulate.
  destruct (Req_dec_T (Vd * (Ka - Ke)) 0) as [E | N].
  - rewrite !accumulate_zero_divisor by exact E.
    destruct doses as [| d r], doses' as [| d' r']; try reflexivity.
    + apply Permutation_nil in HP. discriminate.
    + apply Permutation_sym, Permutation_nil in HP.
      discriminate.
  - rewrite !accumulate_closed_form by exact N. f_equal.
    apply fold_np_add_perm. now apply Permutation_map.
Qed.
Lemma dose_curve_zero_before (d : R * datetime) (i : nat) :
  (i < List.length tps)%nat -> (nth i tps 0 <= snd d)%Z ->
  nth i (dose_curve d) 0 = 0.
Proof.
  intros Hi Hle. unfold dose_curve, time_since_dose, np_maximum.
  rewrite (nth_map_in_range _ _ _ 0) by now rewrite !length_map.
  rewrite (nth_map_in_range _ _ _ 0) by now rewrite length_map.
  rewrite (nth_map_in_range _ _ _ 0%Z) by assumption.
  cbv beta.
  match goal with
  | |- context [model_value _ _ _ _ _ (Rmax ?x 0)] =>
      assert (Hs : x <= 0); [| rewrite (Rmax_right x 0) by exact Hs]
  end.
  { unfold total_seconds. change (IZR us_per_second) with 1000000.
    match goal with
    | |- IZR ?z / _ / _ <= 0 =>
        assert (IZR z <= 0) by (apply IZR_le, Z.le_sub_0; exact Hle)
    end.
    lra. }
  unfold model_value. rewrite !Rmult_0_r, Rminus_diag, Rmult_0_r.
  apply Rmax_left. lra.
Qed.

Lemma fold_np_add_nth_zero (l : list (list R)) (a : list R) (i : nat) :
  Forall (fun c => List.length c = List.length a /\ nth i c 0 = 0) l ->
  nth i a 0 = 0 ->
  nth i (fold_left np_add l a) 0 = 0.
Proof.
  revert a. induction l as [| c l IH]; intros a Hl Ha; simpl; [exact Ha |].
  inversion Hl as [| ? ? [Hc Hz] Hl']; subst.
  apply IH.
  - eapply Forall_impl; [| exact Hl']. intros c' [Hc' Hz']. simpl.
    split; [| exact Hz']. rewrite np_add_length; congruence.
  - rewrite np_add_nth by congruence. lra.
Qed.

Lemma no_effect_before_dose_aux (doses : list (R * datetime)) (C : list R)
    (i : nat) :
  simulate F Ka Ke Vd tps doses = Ok C ->
  (i < List.length tps)%nat ->
  Forall (fun d => (nth i tps 0 <= snd d)%Z) doses ->
  nth i C 0 = 0.
Proof.
  intros HC Hi Hall. unfold simulate in HC.
  assert (Hz : nth i (np_zeros_like tps) 0 = 0).
  { unfold np_zeros_like. now rewrite (nth_map_in_range _ _ _ 0%Z). }
  destruct (Req_dec_T (Vd * (Ka - Ke)) 0) as [E | N].
  - rewrite accumulate_zero_divisor in HC by exact E.
    destruct doses; [| discriminate]. injection HC as <-. exact Hz.
  - rewrite accumulate_closed_form in HC by exact N. injection HC as <-.
    apply fold_np_add_nth_zero; [| exact Hz].
    apply Forall_forall. intros c Hin.
    apply in_map_iff in Hin as (d & <- & Hd).
    rewrite Forall_forall in Hall. split.
    + rewrite dose_curve_length. unfold np_zeros_like. now rewrite length_map.
    + apply dose_curve_zero_before; auto.
Qed.

(** X6.  A grid point that no dose of the schedule precedes (every dose
    is taken at that time point or later) has concentration 0: a dose
    contributes nothing before and at the moment it is taken. *)
Theorem no_effect_before_dose (doses : list (R * datetime)) (C : list R)
    (i : nat) :
  simulate F Ka Ke Vd tps doses = Ok C ->
  (i < List.length tps)%nat ->
  Forall (fun d => (nth i tps 0 <= snd d)%Z) doses ->
  nth i C 0 = 0.
Proof. apply no_effect_before_dose_aux. Qed.

Lemma np_add_bounded (a b : list R) (ba bb : R) :
  Forall (fun c => 0 <= c <= ba) a -> Forall (fun c => 0 <= c <= bb) b ->
  Forall (fun c => 0 <= c <= ba + bb) (np_add a b).
Proof.
  intros Ha. revert b. induction Ha as [| x a Hx Ha IH]; intros b Hb; simpl.
  - constructor.
  - destruct Hb as [| y b Hy Hb]; constructor; [lra | now apply IH].
Qed.

Lemma accumulate_bounded (doses : list (R * datetime)) :
  0 < Vd -> 0 <= F -> 0 <= Ke -> Ke < Ka ->
  Forall (fun d => 0 <= fst d) doses ->
  forall (C0 : list R) (b0 : R),
    List.length C0 = List.length tps ->
    Forall (fun c => 0 <= c <= b0) C0 ->
    exists C : list R,
      accumulate F Ka Ke Vd tps C0 doses = Ok C /\
      List.length C = List.length tps /\
      Forall (fun c => 0 <= c <= b0 + F * total_dose doses / Vd) C.
Proof.
  intros HV HF HKe HKa Hd.
  induction Hd as [| [dose d] rest Hdose Hrest IH]; intros C0 b0 HL Hb; simpl.
  - exists C0. split; [reflexivity |]. split; [exact HL |].
    eapply Forall_impl; [| exact Hb]. intros c Hc. simpl in Hc.
    unfold Rdiv. rewrite Rmult_0_r, Rmult_0_l. lra.
  - simpl in Hdose.
    destruct (dose_curve_bounded_aux F Ka Ke Vd tps dose d HV
                (Rmult_le_pos _ _ HF Hdose) HKe HKa) as (Cd & HCd & HLd & Hbd).
    rewrite HCd. cbn [bind].
    destruct (IH (np_add C0 Cd) (b0 + F * dose / Vd)) as (C & HC & HLC & HbC).
    + rewrite np_add_length; congruence.
    + now apply np_add_bounded.
    + exists C. split; [exact HC |]. split; [exact HLC |].
      eapply Forall_impl; [| exact HbC]. intros c Hc. simpl in Hc.
      replace (b0 + F * (dose + total_dose rest) / Vd)
        with (b0 + F * dose / Vd + F * total_dose rest / Vd)
        by (unfold Rdiv; ring).
      exact Hc.
Qed.
End Schedules.

Lemma simulate_permutation_witness :
  simulate 1 1.2 0.1 42 [0; 3600000000]%Z [(95, 0%Z); (63, 1800000000%Z)]
  = simulate 1 1.2 0.1 42 [0; 3600000000]%Z [(63, 1800000000%Z); (95, 0%Z)].
Proof.
  apply (simulate_permutation 1 1.2 0.1 42 [0; 3600000000]%Z
           [(95, 0%Z); (63, 1800000000%Z)] [(63, 1800000000%Z); (95, 0%Z)]).
  apply perm_swap.
Defined.

Lemma no_effect_before_dose_witness :
  exists C : list R,
    simulate 1 1.2 0.1 42 [0; 3600000000]%Z
      [(95, 3600000000%Z); (63, 7200000000%Z)] = Ok C /\
    nth 1 C 0 = 0.
Proof.
  assert (Hd : 42 * (1.2 - 0.1) <> 0) by lra.
  destruct (simulate_nonneg 1 1.2 0.1 42 [0; 3600000000]%Z
              [(95, 3600000000%Z); (63, 7200000000%Z)] Hd) as (C & HC & _).
  exists C. split; [exact HC |].
  apply (no_effect_before_dose 1 1.2 0.1 42 [0; 3600000000]%Z
           [(95, 3600000000%Z); (63, 7200000000%Z)] C 1 HC).
  - simpl. lia.
  - repeat constructor; simpl; lia.
Defined.

(** ** The curves of the two applications *)

Lemma F_one : F = 1.
Proof. unfold F. lra. Qed.

Lemma Ke_nonneg (p : Profile) (ke : R) :
  valid_profile p -> Ke p = Ok ke -> 0 <= ke < Ka.
Proof.
  intros Hp HK. destruct (Ke_bounds p ke Hp HK) as [H0 H1].
  unfold Ka. lra.
Qed.

Lemma streamlit_total_dose_from (c : clock) (es : list StreamlitApp.entry) :
  forall k : nat,
    total_dose (StreamlitApp.doses_from c k es)
    = IZR (StreamlitApp.entries_total es).
Proof.
  induction es as [| e es IH]; intros k; simpl; [reflexivity |].
  now rewrite IH, plus_IZR.
Qed.

Lemma streamlit_total_dose (c : clock) (es : list StreamlitApp.entry) :
  total_dose (StreamlitApp.doses c es) = IZR (StreamlitApp.entries_total es).
Proof. apply streamlit_total_dose_from. Qed.

Lemma streamlit_doses_from_fst (c : clock) (es : list StreamlitApp.entry) :
  forall k : nat,
    map fst (StreamlitApp.doses_from c k es)
    = map (fun e => IZR (StreamlitApp.dose e)) es.
Proof.
  induction es as [| e es IH]; intros k; simpl; [reflexivity |].
  now rewrite IH.
Qed.

(** X7.  In streamlit_app.py, for a valid profile, a step of 1 to 60
    minutes and entries without negative doses, the curve is defined and
    every value lies between 0 and the sum of all doses divided by the
    distribution volume, whatever dates the run reads from the clock. *)
Theorem streamlit_curve_bounded (clock : clock) (p : Profile)
    (coffee_entries : list StreamlitApp.entry)
    (simulation_time_hours time_step_hours : Z) :
  valid_profile p -> (1 <= time_step_hours <= 60)%Z ->
  Forall (fun e => (0 <= StreamlitApp.dose e)%Z) coffee_entries ->
  exists C : list R,
    StreamlitApp.curve clock p coffee_entries
      simulation_time_hours time_step_hours = Ok C /\
    Forall (fun c => 0 <= c
                     <= IZR (StreamlitApp.entries_total coffee_entries) / Vd p) C.
Proof.
  intros Hp Hs Hdoses. unfold StreamlitApp.curve.
  destruct (divisor_pos p Hp) as (ke & HK & _).
  destruct (Ke_nonneg p ke Hp HK) as [Hk0 Hk1].
  rewrite HK, (t_hours_ok _ _ Hs). cbn [bind]. unfold simulate.
  set (tps := time_points _ _).
  destruct (accumulate_bounded F Ka ke (Vd p) tps
              (StreamlitApp.doses clock coffee_entries)
              (Vd_pos p Hp)) with (C0 := np_zeros_like tps) (b0 := 0)
    as (C & HC & _ & Hb).
  - unfold F. lra.
  - exact Hk0.
  - exact Hk1.
  - apply Forall_forall. intros d Hin.
    apply (in_map fst) in Hin. unfold StreamlitApp.doses in Hin.
    rewrite streamlit_doses_from_fst in Hin.
    apply in_map_iff in Hin as (e & <- & He).
    rewrite Forall_forall in Hdoses. apply IZR_le. now apply Hdoses.
  - unfold np_zeros_like. apply length_map.
  - apply Forall_forall. intros c Hin. unfold np_zeros_like in Hin.
    apply in_map_iff in Hin as (x & <- & _). lra.
  - exists C. split; [exact HC |].
    eapply Forall_impl; [| exact Hb]. intros c Hc. simpl in Hc.
    rewrite streamlit_total_dose, F_one in Hc.
    replace (IZR (StreamlitApp.entries_total coffee_entries) / Vd p)
      with (0 + 1 * IZR (StreamlitApp.entries_total coffee_entries) / Vd p)
      by (unfold Rdiv; ring).
    exact Hc.
Qed.

Lemma streamlit_curve_bounded_witness :
  exists C : list R,
    StreamlitApp.curve midnight_straddle muz_70 [drip_at_8; drip_at_8] 23 15
    = Ok C /\
    Forall (fun c => 0 <= c
                     <= IZR (StreamlitApp.entries_total [drip_at_8; drip_at_8])
                        / Vd muz_70) C.
Proof.
  apply (streamlit_curve_bounded midnight_straddle muz_70
           [drip_at_8; drip_at_8] 23 15).
  - unfold valid_profile; simpl; lia.
  - lia.
  - repeat constructor; simpl; lia.
Defined.

(** X8.  With no entries the curve of streamlit_app.py is zero at every
    grid point, for every valid profile, every grid with a step of 1 to 60
    minutes and whatever date the run reads from the clock. *)
Theorem streamlit_empty_schedule (clock : clock) (p : Profile)
    (simulation_time_hours time_step_hours : Z) :
  valid_profile p -> (1 <= time_step_hours <= 60)%Z ->
  exists t_hours_ : list R,
    t_hours simulation_time_hours time_step_hours = Ok t_hours_ /\
    StreamlitApp.curve clock p [] simulation_time_hours time_step_hours
    = Ok (np_zeros_like t_hours_).
Proof.
  intros Hp Hs. exists (grid simulation_time_hours time_step_hours).
  split; [now apply t_hours_ok |].
  unfold StreamlitApp.curve.
  destruct (divisor_pos p Hp) as (ke & HK & _).
  rewrite HK, (t_hours_ok _ _ Hs). cbn [bind].
  unfold simulate. simpl. f_equal.
  unfold np_zeros_like, time_points. now rewrite map_map.
Qed.

Lemma streamlit_empty_schedule_witness :
  exists t_hours_ : list R,
    t_hours 23 15 = Ok t_hours_ /\
    StreamlitApp.curve (same_day 0%Z) muz_70 [] 23 15
    = Ok (np_zeros_like t_hours_).
Proof.
  apply (streamlit_empty_schedule (same_day 0%Z) muz_70 23 15).
  - unfold valid_profile; simpl; lia.
  - lia.
Defined.

Lemma kofeinator_doses_total (start : datetime) (total : Z) (interval : R)
    (n : nat) (a : nat) :
  total_dose (map (fun i => (IZR total,
                             (start + timedelta_hours (INR i * interval))%Z))
                  (seq a n))
  = INR n * IZR total.
Proof.
  revert a. induction n as [| n IH]; intros a.
  - simpl. ring.
  - cbn [seq map total_dose fold_right fst].
    change (fold_right (fun d acc => fst d + acc) 0
              (map (fun i => (IZR total,
                              (start + timedelta_hours (INR i * interval))%Z))
                   (seq (S a) n)))
      with (total_dose
              (map (fun i => (IZR total,
                              (start + timedelta_hours (INR i * interval))%Z))
                   (seq (S a) n))).
    rewrite IH, S_INR. ring.
Qed.

(** X9.  In kofeinator.py every round of the loop is dosed with the total
    of all servings: with n servings of c mg each the schedule holds n doses
    of c·n mg, c·n² mg in all; for a valid profile and a step of 1 to 60
    minutes the curve is defined and lies between 0 and c·n²/Vd. *)
Theorem kofeinator_doses_are_totals (today : date) (p : Profile)
    (caffeine_per_serving servings : Z) (dosing_interval : R)
    (first_dose_time : time) (simulation_time_hours time_step_hours : Z) :
  valid_profile p -> (1 <= time_step_hours <= 60)%Z ->
  (0 <= caffeine_per_serving)%Z -> (0 <= servings)%Z ->
  let start := Kofeinator.simulation_start_time today first_dose_time in
  let doses := Kofeinator.doses start (caffeine_per_serving * servings)
                 servings dosing_interval in
  List.length doses = Z.to_nat servings /\
  Forall (fun d => fst d = IZR (caffeine_per_serving * servings)) doses /\
  total_dose doses = IZR (caffeine_per_serving * servings * servings) /\
  exists C : list R,
    Kofeinator.curve today p caffeine_per_serving servings dosing_interval
      first_dose_time simulation_time_hours time_step_hours = Ok C /\
    Forall (fun c => 0 <= c
                     <= IZR (caffeine_per_serving * servings * servings) / Vd p)
           C.
Proof.
  intros Hp Hs Hc Hn start doses.
  assert (Htot : total_dose doses
                 = IZR (caffeine_per_serving * servings * servings)).
  { unfold doses, Kofeinator.doses. rewrite kofeinator_doses_total.
    rewrite INR_to_nat by exact Hn. rewrite !mult_IZR. ring. }
  split; [| split; [| split; [exact Htot |]]].
  - unfold doses, Kofeinator.doses. now rewrite length_map, length_seq.
  - unfold doses, Kofeinator.doses. apply Forall_forall. intros d Hin.
    apply in_map_iff in Hin as (i & <- & _). reflexivity.
  - unfold Kofeinator.curve.
    destruct (divisor_pos p Hp) as (ke & HK & _).
    destruct (Ke_nonneg p ke Hp HK) as [Hk0 Hk1].
    rewrite HK, (t_hours_ok _ _ Hs). cbn [bind].
    unfold simulate. fold start. fold doses.
    set (tps := time_points _ _).
    destruct (accumulate_bounded F Ka ke (Vd p) tps doses (Vd_pos p Hp))
      with (C0 := np_zeros_like tps) (b0 := 0) as (C & HC & _ & Hb).
    + unfold F. lra.
    + exact Hk0.
    + exact Hk1.
    + unfold doses, Kofeinator.doses. apply Forall_forall. intros d Hin.
      apply in_map_iff in Hin as (i & <- & _). simpl.
      apply IZR_le. lia.
    + unfold np_zeros_like. apply length_map.
    + apply Forall_forall. intros c Hin. unfold np_zeros_like in Hin.
      apply in_map_iff in Hin as (x & <- & _). lra.
    + exists C. split; [exact HC |].
      eapply Forall_impl; [| exact Hb]. intros c Hcc. simpl in Hcc.
      rewrite Htot, F_one in Hcc.
      replace (IZR (caffeine_per_serving * servings * servings) / Vd p)
        with (0 + 1 * IZR (caffeine_per_serving * servings * servings) / Vd p)
        by (unfold Rdiv; ring).
      exact Hcc.
Qed.

Lemma kofeinator_doses_are_totals_witness :
  let start := Kofeinator.simulation_start_time 0%Z (mk_time 8 0) in
  let doses := Kofeinator.doses start (95 * 3) 3 2 in
  List.length doses = Z.to_nat 3 /\
  Forall (fun d => fst d = IZR (95 * 3)) doses /\
  total_dose doses = IZR (95 * 3 * 3) /\
  exists C : list R,
    Kofeinator.curve 0%Z muz_70 95 3 2 (mk_time 8 0) 23 15 = Ok C /\
    Forall (fun c => 0 <= c <= IZR (95 * 3 * 3) / Vd muz_70) C.
Proof.
  apply (kofeinator_doses_are_totals 0%Z muz_70 95 3 2 (mk_time 8 0) 23 15);
    [unfold valid_profile; simpl; lia | lia | lia | lia].
Defined.

(** ** The list of entries of streamlit_app.py *)

Lemma dict_get_in {V : Type} (d : list (string * V)) (key : string)
    (v default : V) :
  NoDup (StreamlitApp.keys d) -> In (key, v) d ->
  StreamlitApp.dict_get d key default = v.
Proof.
  induction d as [| [k w] d IH]; simpl; intros Hnd Hin; [contradiction |].
  inversion Hnd as [| ? ? Hk Hnd']; subst.
  destruct (String.eqb_spec k key) as [-> | Hne].
  - destruct Hin as [[= ->] | Hin]; [reflexivity |].
    exfalso. apply Hk. unfold StreamlitApp.keys.
    apply in_map_iff. now exists (key, v).
  - destruct Hin as [[= -> _] | Hin]; [contradiction |]. now apply IH.
Qed.

Lemma coffee_keys_nodup : NoDup (StreamlitApp.keys StreamlitApp.coffee_options).
Proof.
  unfold StreamlitApp.keys, StreamlitApp.coffee_options. cbn [map fst].
  repeat (constructor;
          [ cbn [In]; intros H;
            repeat (destruct H as [H | H]; [discriminate H |]); exact H | ]).
  constructor.
Qed.

(** What the lookup of [add_entry] can return. *)
Lemma coffee_lookup_cases (key : string) :
  (key = "Vlastní dávka"%string /\
   StreamlitApp.dict_get StreamlitApp.coffee_options key (Some 0%Z) = None) \/
  (key <> "Vlastní dávka"%string /\
   exists c : Z,
     StreamlitApp.dict_get StreamlitApp.coffee_options key (Some 0%Z) = Some c /\
     (0 <= c <= 120)%Z).
Proof.
  unfold StreamlitApp.coffee_options. cbn [StreamlitApp.dict_get].
  repeat match goal with
         | |- context [String.eqb ?k key] =>
             destruct (String.eqb_spec k key) as [<- | ?]
         end;
    try (right; split; [discriminate | eexists; split; [reflexivity | lia]]).
  - left. split; reflexivity.
  - right. split; [congruence | eexists; split; [reflexivity | lia]].
Qed.

(** X10.  For a coffee of the menu the add operation appends one entry
    whose dose is the caffeine content of the menu times the servings. *)
Theorem add_menu_coffee (coffee_entries : list StreamlitApp.entry)
    (coffee_choice : string) (c servings : Z) (dose_time : time) :
  In (coffee_choice, Some c) StreamlitApp.coffee_options ->
  StreamlitApp.add_entry coffee_entries coffee_choice servings dose_time =
  Ok (coffee_entries ++
      [ {| StreamlitApp.type := coffee_choice;
           StreamlitApp.dose := (c * servings)%Z;
           StreamlitApp.time_ := dose_time |} ]).
Proof.
  intros Hin. unfold StreamlitApp.add_entry.
  rewrite (dict_get_in _ _ _ _ coffee_keys_nodup Hin). reflexivity.
Qed.

Lemma add_menu_coffee_witness :
  StreamlitApp.add_entry [drip_at_8] "Cold Brew (240 ml)" 3 (mk_time 14 30) =
  Ok ([drip_at_8] ++
      [ {| StreamlitApp.type := "Cold Brew (240 ml)";
           StreamlitApp.dose := (120 * 3)%Z;
           StreamlitApp.time_ := mk_time 14 30 |} ]).
Proof.
  apply (add_menu_coffee [drip_at_8] "Cold Brew (240 ml)" 120 3 (mk_time 14 30)).
  unfold StreamlitApp.coffee_options. cbn [In]. tauto.
Defined.

(** X11.  The add operation fails for exactly one choice: the custom entry
    of the menu, whose caffeine content is [None], raises [TypeError]; no
    other key, known or unknown, raises anything. *)
Theorem add_entry_raises_iff (coffee_entries : list StreamlitApp.entry)
    (coffee_choice : string) (servings : Z) (dose_time : time) (e : exception) :
  StreamlitApp.add_entry coffee_entries coffee_choice servings dose_time
  = Raise e
  <-> coffee_choice = "Vlastní dávka"%string /\ e = TypeError.
Proof.
  unfold StreamlitApp.add_entry.
  destruct (coffee_lookup_cases coffee_choice) as [[Hk Hg] | [Hk (c & Hg & _)]];
    rewrite Hg; cbn [StreamlitApp.mul_servings bind]; split.
  - intros [= <-]. now split.
  - intros [_ ->]. reflexivity.
  - discriminate.
  - intros [Hk' _]. contradiction.
Qed.

Lemma add_entry_raises_iff_witness :
  StreamlitApp.add_entry [drip_at_8] "Vlastní dávka" 2 (mk_time 9 0)
  = Raise TypeError.
Proof.
  apply (proj2 (add_entry_raises_iff [drip_at_8] "Vlastní dávka" 2
                  (mk_time 9 0) TypeError)).
  split; reflexivity.
Defined.

(** X12.  Adding an entry and then removing the last one gives back the
    list of entries: the add operation only appends (the earlier entries are
    kept in order) and the remove operation takes off exactly that entry. *)
Theorem add_then_remove_last (coffee_entries es' : list StreamlitApp.entry)
    (coffee_choice : string) (servings : Z) (dose_time : time) :
  StreamlitApp.add_entry coffee_entries coffee_choice servings dose_time
  = Ok es' ->
  StreamlitApp.remove_last es' = coffee_entries /\
  List.length es' = S (List.length coffee_entries) /\
  firstn (List.length coffee_entries) es' = coffee_entries.
Proof.
  unfold StreamlitApp.add_entry, StreamlitApp.remove_last.
  destruct (StreamlitApp.mul_servings _ servings) as [total | e];
    cbn [bind]; [| discriminate].
  intros [= <-]. split; [apply removelast_last |]. split.
  - rewrite length_app. simpl. lia.
  - rewrite firstn_app, Nat.sub_diag, firstn_all. simpl. apply app_nil_r.
Qed.

Lemma add_then_remove_last_witness :
  StreamlitApp.remove_last
    [drip_at_8;
     {| StreamlitApp.type := "Decaf (240 ml)"; StreamlitApp.dose := 10;
        StreamlitApp.time_ := mk_time 20 0 |}] = [drip_at_8] /\
  List.length
    [drip_at_8;
     {| StreamlitApp.type := "Decaf (240 ml)"; StreamlitApp.dose := 10;
        StreamlitApp.time_ := mk_time 20 0 |}] = S (List.length [drip_at_8]) /\
  firstn (List.length [drip_at_8])
    [drip_at_8;
     {| StreamlitApp.type := "Decaf (240 ml)"; StreamlitApp.dose := 10;
        StreamlitApp.time_ := mk_time 20 0 |}] = [drip_at_8].
Proof.
  apply (add_then_remove_last [drip_at_8] _ "Decaf (240 ml)" 2 (mk_time 20 0)).
  reflexivity.
Defined.

(** X13.  The add and remove operations keep every dose of the list between
    0 and 1200 mg, as long as the servings are between 1 and 10 as the form
    enforces. *)
Theorem entries_dose_range (coffee_entries es' : list StreamlitApp.entry)
    (coffee_choice : string) (servings : Z) (dose_time : time) :
  (1 <= servings <= 10)%Z ->
  Forall (fun e => (0 <= StreamlitApp.dose e <= 1200)%Z) coffee_entries ->
  Forall (fun e => (0 <= StreamlitApp.dose e <= 1200)%Z)
         (StreamlitApp.remove_last coffee_entries) /\
  (StreamlitApp.add_entry coffee_entries coffee_choice servings dose_time
   = Ok es' ->
   Forall (fun e => (0 <= StreamlitApp.dose e <= 1200)%Z) es').
Proof.
  intros Hs Hall. split.
  - unfold StreamlitApp.remove_last. apply Forall_forall. intros e Hin.
    rewrite Forall_forall in Hall. apply Hall.
    destruct coffee_entries as [| e0 es]; [contradiction |].
    destruct (exists_last (l := e0 :: es)) as (l' & a & Hl); [discriminate |].
    rewrite Hl in *. rewrite removelast_last in Hin.
    apply in_or_app. now left.
  - unfold StreamlitApp.add_entry.
    destruct (coffee_lookup_cases coffee_choice) as [[_ Hg] | [_ (c & Hg & Hc)]];
      rewrite Hg; cbn [StreamlitApp.mul_servings bind]; [discriminate |].
    intros [= <-]. apply Forall_app. split; [exact Hall |].
    constructor; [| constructor]. simpl. nia.
Qed.

Lemma entries_dose_range_witness :
  Forall (fun e => (0 <= StreamlitApp.dose e <= 1200)%Z)
         (StreamlitApp.remove_last [drip_at_8]) /\
  (StreamlitApp.add_entry [drip_at_8] "Cold Brew (240 ml)" 10 (mk_time 9 0)
   = Ok [drip_at_8;
         {| StreamlitApp.type := "Cold Brew (240 ml)";
            StreamlitApp.dose := 1200; StreamlitApp.time_ := mk_time 9 0 |}] ->
   Forall (fun e => (0 <= StreamlitApp.dose e <= 1200)%Z)
     [drip_at_8;
      {| StreamlitApp.type := "Cold Brew (240 ml)";
         StreamlitApp.dose := 1200; StreamlitApp.time_ := mk_time 9 0 |}]).
Proof.
  apply (entries_dose_range [drip_at_8] _ "Cold Brew (240 ml)" 10 (mk_time 9 0)).
  - lia.
  - repeat constructor; simpl; lia.
Defined.

(** ** The grid and its time points *)

Lemma time_since_dose_nth_aux (H s : Z) (start dose_time : datetime)
    (i : nat) :
  (i < List.length (grid H s))%nat ->
  nth i (time_since_dose (time_points start (grid H s)) dose_time) 0
  = Rmax (nth i (grid H s) 0
          - IZR (dose_time - start) / IZR us_per_hour) 0.
Proof.
  intros Hi. unfold time_since_dose, np_maximum.
  rewrite (nth_map_in_range _ _ _ 0)
    by (unfold time_points; now rewrite !length_map).
  rewrite (nth_map_in_range _ _ _ 0%Z)
    by (unfold time_points; now rewrite length_map).
  rewrite time_points_nth by assumption.
  rewrite grid_nth by assumption.
  f_equal. unfold total_seconds.
  replace (start + Z.of_nat i * s * 60000000 - dose_time)%Z
    with (Z.of_nat i * s * 60000000 - (dose_time - start))%Z
    by (unfold datetime in *; ring).
  rewrite minus_IZR, !mult_IZR, <- INR_IZR_INZ.
  change (IZR us_per_second) with 1000000.
  change (IZR us_per_hour) with 3600000000.
  field.
Qed.

(** X14.  With k = ceil(60·H/s), computed on integers as
    (60·H + s − 1) div s, the grid has k + 1 points or, when the quotient of
    the doubles comes out just above a whole number, k + 2; the additional
    point only occurs when s divides 60·H.  Both cases occur: 93 = k + 1
    points for H = 23, s = 15 and 140 = k + 2 points for H = 23, s = 10. *)
Theorem grid_point_count (H s : Z) :
  (1 <= H <= 23)%Z -> (1 <= s <= 60)%Z ->
  exists t_hours_ : list R,
    t_hours H s = Ok t_hours_ /\
    let k := ((60 * H + s - 1) / s)%Z in
    let n := Z.of_nat (List.length t_hours_) in
    (n = k + 1 \/ n = k + 2)%Z /\
    (n = k + 2 -> (60 * H) mod s = 0)%Z /\
    (exists t23_15 t23_10 : list R,
       t_hours 23 15 = Ok t23_15 /\ List.length t23_15 = 93%nat /\
       t_hours 23 10 = Ok t23_10 /\ List.length t23_10 = 140%nat).
Proof.
  intros HH Hs. exists (grid H s). split; [now apply t_hours_ok |].
  pose proof (grid_check_ok H s HH Hs) as Hc.
  unfold grid_check in Hc. rewrite !andb_true_iff in Hc.
  destruct Hc as [[[[_ Hlo] Hhi] Hdiv] _].
  apply Z.leb_le in Hlo. apply Z.leb_le in Hhi.
  cbv zeta. rewrite grid_length.
  set (k := ((60 * H + s - 1) / s)%Z) in *.
  assert (Hk : (0 <= k)%Z) by (apply Z.div_pos; lia).
  rewrite Z2Nat.id by lia.
  split; [lia |]. split.
  - intros Hn. apply Z.eqb_eq in Hn. rewrite Hn in Hdiv. simpl in Hdiv.
    now apply Z.eqb_eq in Hdiv.
  - exists (grid 23 15), (grid 23 10).
    split; [apply t_hours_ok; lia |]. split; [apply grid_23_15_length |].
    split; [apply t_hours_ok; lia |].
    rewrite grid_length. vm_compute. reflexivity.
Qed.

Lemma grid_point_count_witness :
  exists t_hours_ : list R,
    t_hours 1 2 = Ok t_hours_ /\
    let k := ((60 * 1 + 2 - 1) / 2)%Z in
    let n := Z.of_nat (List.length t_hours_) in
    (n = k + 1 \/ n = k + 2)%Z /\
    (n = k + 2 -> (60 * 1) mod 2 = 0)%Z /\
    (exists t23_15 t23_10 : list R,
       t_hours 23 15 = Ok t23_15 /\ List.length t23_15 = 93%nat /\
       t_hours 23 10 = Ok t23_10 /\ List.length t23_10 = 140%nat).
Proof. apply (grid_point_count 1 2); lia. Defined.

(** X15.  Converting the grid to [datetime] values through
    [timedelta(hours=th)] loses nothing to the rounding to microseconds:
    time point i lies exactly i·s minutes after the start. *)
Theorem time_points_exact (H s : Z) (start : datetime) :
  (1 <= H <= 23)%Z -> (1 <= s <= 60)%Z ->
  exists t_hours_ : list R,
    t_hours H s = Ok t_hours_ /\
    time_points start t_hours_
    = map (fun i => (start + Z.of_nat i * s * 60000000)%Z)
          (seq 0 (List.length t_hours_)).
Proof.
  intros HH Hs. exists (grid H s). split; [now apply t_hours_ok |].
  unfold time_points.
  rewrite grid_seq at 1.
  rewrite map_map. apply map_ext. intros i.
  now rewrite timedelta_hours_grid.
Qed.

Lemma time_points_exact_witness :
  exists t_hours_ : list R,
    t_hours 23 15 = Ok t_hours_ /\
    time_points 28800000000%Z t_hours_
    = map (fun i => (28800000000 + Z.of_nat i * 15 * 60000000)%Z)
          (seq 0 (List.length t_hours_)).
Proof. apply (time_points_exact 23 15 28800000000%Z); lia. Defined.

(** X16.  The detour through [datetime] values computes the plain hour
    offset: for grid point i and a dose taken at [dose_time], the time since
    the dose is max(i·s/60 − d, 0), where d is the number of hours from the
    start to the dose. *)
Theorem time_since_dose_offsets (H s : Z) (start dose_time : datetime) :
  (1 <= H <= 23)%Z -> (1 <= s <= 60)%Z ->
  exists t_hours_ : list R,
    t_hours H s = Ok t_hours_ /\
    forall i : nat,
      (i < List.length t_hours_)%nat ->
      nth i (time_since_dose (time_points start t_hours_) dose_time) 0
      = Rmax (nth i t_hours_ 0
              - IZR (dose_time - start) / IZR us_per_hour) 0.
Proof.
  intros HH Hs. exists (grid H s). split; [now apply t_hours_ok |].
  intros i Hi. now apply time_since_dose_nth_aux.
Qed.

Lemma time_since_dose_offsets_witness :
  exists t_hours_ : list R,
    t_hours 23 15 = Ok t_hours_ /\
    forall i : nat,
      (i < List.length t_hours_)%nat ->
      nth i (time_since_dose (time_points 0%Z t_hours_) 28800000000%Z) 0
      = Rmax (nth i t_hours_ 0
              - IZR (28800000000 - 0) / IZR us_per_hour) 0.
Proof. apply (time_since_dose_offsets 23 15 0%Z 28800000000%Z); lia. Defined.

(** ** The bedtime part of the two applications *)

Lemma combine_bounds (d : date) (t : time) :
  valid_time t ->
  (d * us_per_day <= combine d t < d * us_per_day + us_per_day)%Z.
Proof.
  intros (Hh & Hm & Hs & Hu). unfold combine.
  change us_per_day with 86400000000%Z. change us_per_second with 1000000%Z.
  lia.
Qed.

Lemma streamlit_bedtime_same_day_aux (today bedtime_today : date)
    (bedtime : time) :
  valid_time bedtime -> (today <= bedtime_today)%Z ->
  bedtime_datetime bedtime_today (StreamlitApp.simulation_start_time today)
    bedtime
  = combine bedtime_today bedtime.
Proof.
  intros Hb Hd. unfold bedtime_datetime.
  destruct (Z.ltb_spec (combine bedtime_today bedtime)
              (StreamlitApp.simulation_start_time today)) as [Hlt | Hge];
    [| reflexivity].
  exfalso. pose proof (combine_bounds bedtime_today bedtime Hb) as [Hlo _].
  unfold StreamlitApp.simulation_start_time in Hlt.
  rewrite (combine_day today) in Hlt.
  change (combine 0%Z (mk_time 0 0)) with 0%Z in Hlt.
  change us_per_day with 86400000000%Z in *. unfold datetime, date in *. nia.
Qed.

(** X17.  In streamlit_app.py the simulation starts at midnight, so the
    branch that moves the bedtime to the next day is never taken: the
    bedtime is always compared on the day on which the clock is read for
    it, the day of the start or a later one. *)
Theorem streamlit_bedtime_same_day (today bedtime_today : date)
    (bedtime : time) :
  valid_time bedtime -> (today <= bedtime_today)%Z ->
  bedtime_datetime bedtime_today (StreamlitApp.simulation_start_time today)
    bedtime
  = combine bedtime_today bedtime.
Proof. apply streamlit_bedtime_same_day_aux. Qed.

Lemma streamlit_bedtime_same_day_witness :
  bedtime_datetime 4%Z (StreamlitApp.simulation_start_time 3%Z) (mk_time 22 0)
  = combine 4%Z (mk_time 22 0).
Proof.
  apply (streamlit_bedtime_same_day 3%Z 4%Z (mk_time 22 0)).
  - unfold valid_time; simpl; lia.
  - lia.
Defined.

(** X18.  In kofeinator.py the bedtime used for the query is never earlier
    than the first dose.  When the two calls of [datetime.today()] return
    the same date it falls in the 24 hours that begin with the first dose
    (a bedtime earlier in the day than the first dose is taken on the next
    day); when the date has advanced between the two calls, the bedtime is
    taken on the later date as it is. *)
Theorem kofeinator_bedtime_window (today bedtime_today : date)
    (first_dose_time bedtime : time) :
  valid_time first_dose_time -> valid_time bedtime ->
  (today <= bedtime_today)%Z ->
  let start := Kofeinator.simulation_start_time today first_dose_time in
  let bd := bedtime_datetime bedtime_today start bedtime in
  (start <= bd)%Z /\
  (bedtime_today = today -> (bd < start + us_per_day)%Z) /\
  ((today < bedtime_today)%Z -> bd = combine bedtime_today bedtime).
Proof.
  intros Hf Hb Hd start bd. unfold bd, bedtime_datetime, timedelta_days.
  pose proof (combine_bounds today first_dose_time Hf) as [Hf1 Hf2].
  pose proof (combine_bounds bedtime_today bedtime Hb) as [Hb1 Hb2].
  unfold start, Kofeinator.simulation_start_time.
  change us_per_day with 86400000000%Z in *.
  destruct (Z.ltb_spec (combine bedtime_today bedtime)
              (combine today first_dose_time)) as [Hlt | Hge].
  - assert (bedtime_today = today) by (unfold datetime, date in *; nia).
    subst bedtime_today. repeat split; try lia.
  - repeat split; lia.
Qed.

Lemma kofeinator_bedtime_window_witness :
  let start := Kofeinator.simulation_start_time 0%Z (mk_time 8 0) in
  let bd := bedtime_datetime 0%Z start (mk_time 1 30) in
  (start <= bd)%Z /\
  (0%Z = 0%Z -> (bd < start + us_per_day)%Z) /\
  ((0 < 0)%Z -> bd = combine 0%Z (mk_time 1 30)).
Proof.
  apply (kofeinator_bedtime_window 0%Z 0%Z (mk_time 8 0) (mk_time 1 30));
    [unfold valid_time; simpl; lia | unfold valid_time; simpl; lia | lia].
Defined.

Lemma last_as_nth {A : Type} (l : list A) (d : A) :
  last l d = nth (List.length l - 1) l d.
Proof.
  induction l as [| x l IH]; [reflexivity |].
  destruct l as [| y l]; [reflexivity |].
  change (last (x :: y :: l) d) with (last (y :: l) d). rewrite IH.
  simpl. now rewrite Nat.sub_0_r.
Qed.

Lemma grid_nonempty (H s : Z) :
  (1 <= H <= 23)%Z -> (1 <= s <= 60)%Z ->
  exists n : nat,
    List.length (grid H s) = S n /\ (60 * H <= Z.of_nat n * s)%Z.
Proof.
  intros HH Hs. destruct (grid_last H s HH Hs) as (n & HL & _ & Hlo & _).
  exists n. split; [exact HL |].
  apply le_IZR. rewrite !mult_IZR, <- INR_IZR_INZ.
  assert (Hs0 : 0 < IZR s) by (apply IZR_lt; lia).
  lra.
Qed.

Lemma idx_bedtime_spec (tps : list datetime) (bed : datetime) :
  (0 < List.length tps)%nat ->
  exists idx : nat,
    idx_bedtime tps bed = Ok idx /\ (idx < List.length tps)%nat /\
    (forall j, (j < List.length tps)%nat ->
       (Z.abs (nth idx tps 0 - bed) <= Z.abs (nth j tps 0 - bed))%Z) /\
    (forall j, (j < idx)%nat ->
       (Z.abs (nth idx tps 0 - bed) < Z.abs (nth j tps 0 - bed))%Z).
Proof.
  intros Hn.
  destruct (py_min_range (fun i => Z.abs (nth i tps 0%Z - bed)) _ Hn)
    as (idx & Hidx & Hlt & Hall & Hfirst).
  exists idx. repeat split; assumption.
Qed.

Lemma bedtime_within_half_step_aux (H s : Z) (start bed : datetime) :
  (1 <= H <= 23)%Z -> (1 <= s <= 60)%Z ->
  (start <= bed <= start + H * us_per_hour)%Z ->
  exists idx : nat,
    idx_bedtime (time_points start (grid H s)) bed = Ok idx /\
    (Z.abs (nth idx (time_points start (grid H s)) 0 - bed)
     <= s * 30000000)%Z.
Proof.
  intros HH Hs Hbed.
  destruct (grid_nonempty H s HH Hs) as (n & HL & Hn).
  set (tps := time_points start (grid H s)).
  assert (HLt : List.length tps = S n)
    by (unfold tps, time_points; now rewrite length_map).
  destruct (idx_bedtime_spec tps bed) as (idx & Hidx & _ & Hall & _);
    [lia |].
  exists idx. split; [exact Hidx |].
  change us_per_hour with 3600000000%Z in Hbed.
  set (x := (bed - start)%Z).
  set (hs := (s * 30000000)%Z).
  set (q := ((x + hs) / (2 * hs))%Z).
  assert (Hhs : (0 < hs)%Z) by (unfold hs; lia).
  pose proof (Z.div_mod (x + hs) (2 * hs) ltac:(lia)) as Hdm.
  pose proof (Z.mod_pos_bound (x + hs) (2 * hs) ltac:(lia)) as Hm.
  fold q in Hdm.
  assert (Hx : (0 <= x <= Z.of_nat n * (2 * hs))%Z) by (unfold x, hs; lia).
  assert (Hq : (0 <= q <= Z.of_nat n)%Z) by nia.
  specialize (Hall (Z.to_nat q)).
  assert (Hj : (Z.to_nat q < List.length tps)%nat) by lia.
  specialize (Hall Hj).
  assert (Htp : nth (Z.to_nat q) tps 0%Z = (start + q * (2 * hs))%Z).
  { unfold tps. rewrite time_points_nth by (rewrite HL; lia).
    rewrite Z2Nat.id by lia. unfold hs, datetime in *. ring. }
  rewrite Htp in Hall.
  eapply Z.le_trans; [exact Hall |].
  apply Z.abs_le. unfold x in *. unfold datetime in *. lia.
Qed.

(** X19.  When the bedtime lies in the simulated window (between the start
    and the start plus the horizon), the grid point chosen for it is at most
    half a time step, s/2 minutes, away. *)
Theorem bedtime_within_half_step (H s : Z) (start bed : datetime) :
  (1 <= H <= 23)%Z -> (1 <= s <= 60)%Z ->
  (start <= bed <= start + H * us_per_hour)%Z ->
  exists (t_hours_ : list R) (idx : nat),
    t_hours H s = Ok t_hours_ /\
    idx_bedtime (time_points start t_hours_) bed = Ok idx /\
    (Z.abs (nth idx (time_points start t_hours_) 0 - bed)
     <= s * 30000000)%Z.
Proof.
  intros HH Hs Hbed.
  destruct (bedtime_within_half_step_aux H s start bed HH Hs Hbed)
    as (idx & Hidx & Habs).
  exists (grid H s), idx. split; [now apply t_hours_ok |]. now split.
Qed.

Lemma bedtime_within_half_step_witness :
  exists (t_hours_ : list R) (idx : nat),
    t_hours 23 15 = Ok t_hours_ /\
    idx_bedtime (time_points 0%Z t_hours_) 79500000000%Z = Ok idx /\
    (Z.abs (nth idx (time_points 0%Z t_hours_) 0 - 79500000000)
     <= 15 * 30000000)%Z.
Proof.
  apply (bedtime_within_half_step 23 15 0%Z 79500000000%Z); try lia.
  change us_per_hour with 3600000000%Z. lia.
Defined.

Lemma bedtime_after_grid_aux (H s : Z) (start bed : datetime) :
  (1 <= H <= 23)%Z -> (1 <= s <= 60)%Z ->
  (last (time_points start (grid H s)) 0 <= bed)%Z ->
  idx_bedtime (time_points start (grid H s)) bed
  = Ok (List.length (time_points start (grid H s)) - 1)%nat.
Proof.
  intros HH Hs Hbed.
  destruct (grid_nonempty H s HH Hs) as (n & HL & _).
  set (tps := time_points start (grid H s)) in *.
  assert (HLt : List.length tps = S n)
    by (unfold tps, time_points; now rewrite length_map).
  assert (Hnth : forall j, (j <= n)%nat ->
            nth j tps 0%Z = (start + Z.of_nat j * s * 60000000)%Z).
  { intros j Hj. unfold tps. apply time_points_nth. rewrite HL. lia. }
  assert (Hlast : last tps 0%Z = nth n tps 0%Z).
  { rewrite last_as_nth, HLt. f_equal. lia. }
  rewrite Hlast, (Hnth n) in Hbed by lia.
  destruct (idx_bedtime_spec tps bed) as (idx & Hidx & Hlt & Hall & _);
    [lia |].
  rewrite Hidx, HLt. f_equal.
  destruct (Nat.eq_dec idx n) as [-> | Hne]; [lia |].
  exfalso. specialize (Hall n ltac:(lia)).
  rewrite (Hnth idx), (Hnth n) in Hall by lia.
  assert (Hi : (Z.of_nat idx + 1 <= Z.of_nat n)%Z) by lia.
  unfold datetime in *. nia.
Qed.

(** X20.  When the bedtime lies at or after the last time point of the
    grid, the query reports the value at the last grid point. *)
Theorem bedtime_after_grid (H s : Z) (start bed : datetime) :
  (1 <= H <= 23)%Z -> (1 <= s <= 60)%Z ->
  exists t_hours_ : list R,
    t_hours H s = Ok t_hours_ /\
    ((last (time_points start t_hours_) 0 <= bed)%Z ->
     idx_bedtime (time_points start t_hours_) bed
     = Ok (List.length (time_points start t_hours_) - 1)%nat).
Proof.
  intros HH Hs. exists (grid H s). split; [now apply t_hours_ok |].
  now apply bedtime_after_grid_aux.
Qed.

Lemma bedtime_after_grid_witness :
  exists t_hours_ : list R,
    t_hours 23 15 = Ok t_hours_ /\
    idx_bedtime (time_points 0%Z t_hours_) 86000000000%Z
    = Ok (List.length (time_points 0%Z t_hours_) - 1)%nat.
Proof.
  destruct (bedtime_after_grid 23 15 0%Z 86000000000%Z) as (th & Hth & Himp);
    try lia.
  exists th. split; [exact Hth |]. apply Himp.
  rewrite t_hours_ok in Hth by lia. injection Hth as <-.
  assert (HLt : List.length (time_points 0%Z (grid 23 15)) = 93%nat)
    by (unfold time_points; rewrite length_map; apply grid_23_15_length).
  rewrite last_as_nth, HLt.
  change (93 - 1)%nat with 92%nat.
  rewrite time_points_nth by (rewrite grid_23_15_length; lia).
  change (Z.of_nat 92) with 92%Z. lia.
Defined.

Lemma bedtime_query_total (tps : list datetime) (C : list R) (bed : datetime) :
  (0 < List.length tps)%nat -> List.length C = List.length tps ->
  exists c : R,
    bedtime_query tps C bed = Ok (c, exceeds_sleep_threshold c) /\ In c C.
Proof.
  intros Hn HL.
  destruct (idx_bedtime_spec tps bed Hn) as (idx & Hidx & Hlt & _).
  destruct (nth_error C idx) as [c |] eqn:E.
  - exists c. split; [| eapply nth_error_In; exact E].
    unfold bedtime_query. rewrite Hidx. cbn [bind].
    unfold getitem. now rewrite E.
  - apply nth_error_None in E. lia.
Qed.

(** X21.  For a valid profile and a grid configuration within the ranges
    of the widgets, the bedtime part of both applications never raises (the
    grid is not empty and the index found is within the curve), whatever
    dates the run reads from the clock: it returns a concentration that is
    not negative, with the warning shown exactly when it is above 1 mg/L. *)
Theorem bedtime_result_total (clock : clock) (today bedtime_today : date)
    (p : Profile) (coffee_entries : list StreamlitApp.entry)
    (caffeine_per_serving servings : Z) (dosing_interval : R)
    (first_dose_time : time) (H s : Z) (bedtime : time) :
  valid_profile p -> (1 <= H <= 23)%Z -> (1 <= s <= 60)%Z ->
  (exists c : R,
     StreamlitApp.bedtime_result clock p coffee_entries H s bedtime
     = Ok (c, exceeds_sleep_threshold c) /\ 0 <= c) /\
  (exists c : R,
     Kofeinator.bedtime_result today bedtime_today p caffeine_per_serving
       servings dosing_interval first_dose_time H s bedtime
     = Ok (c, exceeds_sleep_threshold c) /\ 0 <= c).
Proof.
  intros Hp HH Hs.
  destruct (divisor_pos p Hp) as (ke & HK & Hpos).
  destruct (grid_nonempty H s HH Hs) as (n & HL & _).
  assert (Hne : forall start,
            (0 < List.length (time_points start (grid H s)))%nat)
    by (intros start; unfold time_points; rewrite length_map, HL; lia).
  split.
  - unfold StreamlitApp.bedtime_result, StreamlitApp.curve.
    rewrite HK, (t_hours_ok H s Hs). cbn [bind].
    destruct (simulate_nonneg F Ka ke (Vd p)
                (time_points (StreamlitApp.simulation_start_time (clock 0%nat))
                   (grid H s))
                (StreamlitApp.doses clock coffee_entries))
      as (C & HC & HLC & HN); [lra |].
    rewrite HC. cbn [bind].
    destruct (bedtime_query_total _ C
                (bedtime_datetime (clock (S (List.length coffee_entries)))
                   (StreamlitApp.simulation_start_time (clock 0%nat)) bedtime)
                (Hne _) HLC) as (c & Hq & Hin).
    exists c. split; [exact Hq |].
    rewrite Forall_forall in HN. now apply HN.
  - unfold Kofeinator.bedtime_result, Kofeinator.curve.
    rewrite HK, (t_hours_ok H s Hs). cbn [bind].
    set (start := Kofeinator.simulation_start_time today first_dose_time).
    destruct (simulate_nonneg F Ka ke (Vd p)
                (time_points start (grid H s))
                (Kofeinator.doses start (caffeine_per_serving * servings)
                   servings dosing_interval))
      as (C & HC & HLC & HN); [lra |].
    rewrite HC. cbn [bind].
    destruct (bedtime_query_total _ C
                (bedtime_datetime bedtime_today start bedtime)
                (Hne _) HLC) as (c & Hq & Hin).
    exists c. split; [exact Hq |].
    rewrite Forall_forall in HN. now apply HN.
Qed.

Lemma bedtime_result_total_witness :
  (exists c : R,
     StreamlitApp.bedtime_result midnight_straddle muz_70 [drip_at_8] 23 15
       (mk_time 22 0)
     = Ok (c, exceeds_sleep_threshold c) /\ 0 <= c) /\
  (exists c : R,
     Kofeinator.bedtime_result 0%Z 1%Z muz_70 95 2 2 (mk_time 8 0) 23 15
       (mk_time 22 0)
     = Ok (c, exceeds_sleep_threshold c) /\ 0 <= c).
Proof.
  apply (bedtime_result_total midnight_straddle 0%Z 1%Z muz_70 [drip_at_8]
           95 2 2 (mk_time 8 0) 23 15 (mk_time 22 0));
    [unfold valid_profile; simpl; lia | lia | lia].
Defined.

Lemma streamlit_doses_from_later (c : clock) (bound : datetime)
    (es : list StreamlitApp.entry) :
  clock_forward c ->
  Forall (fun e => (bound <= c 0%nat * us_per_day
                             + combine 0 (StreamlitApp.time_ e))%Z) es ->
  forall k : nat,
    Forall (fun d => (bound <= snd d)%Z) (StreamlitApp.doses_from c k es).
Proof.
  intros Hc Hall. induction Hall as [| e es He Hes IH]; intros k; simpl;
    constructor; [| apply IH].
  simpl. rewrite (combine_day (c k)). specialize (Hc k).
  change us_per_day with 86400000000%Z in *. unfold datetime, date in *. nia.
Qed.

(** X22.  In streamlit_app.py the curve is 0 at every grid point that is
    not later than the earliest coffee of the list: nothing is in the blood
    before the first cup.  This holds for every run whose clock does not go
    back behind the date of its first reading. *)
Theorem streamlit_zero_until_first_coffee (clock : clock) (p : Profile)
    (coffee_entries : list StreamlitApp.entry) (H s : Z) (i : nat)
    (C : list R) :
  (1 <= H <= 23)%Z -> (1 <= s <= 60)%Z ->
  clock_forward clock ->
  (i < List.length C)%nat ->
  Forall (fun e => (Z.of_nat i * s * 60000000
                    <= combine 0 (StreamlitApp.time_ e))%Z) coffee_entries ->
  StreamlitApp.curve clock p coffee_entries H s = Ok C ->
  nth i C 0 = 0.
Proof.
  intros HH Hs Hc Hi Hall. unfold StreamlitApp.curve.
  destruct (Ke p) as [ke | e]; cbn [bind]; [| discriminate].
  rewrite (t_hours_ok H s Hs). cbn [bind].
  intros HC.
  assert (HL : List.length C = List.length (grid H s)).
  { unfold simulate in HC.
    destruct (accumulate_shape _ _ _ _ _ _ _ C
                ltac:(unfold np_zeros_like; apply length_map)
                (np_zeros_like_nonneg _) HC) as [HL _].
    rewrite HL. unfold time_points. apply length_map. }
  apply (no_effect_before_dose_aux _ _ _ _ _ _ _ i HC).
  - unfold time_points. rewrite length_map. lia.
  - rewrite time_points_nth by lia.
    unfold StreamlitApp.doses.
    apply streamlit_doses_from_later; [exact Hc |].
    eapply Forall_impl; [| exact Hall]. intros e He. simpl in He.
    unfold StreamlitApp.simulation_start_time.
    rewrite (combine_day (clock 0%nat) (mk_time 0 0)).
    change (combine 0%Z (mk_time 0 0)) with 0%Z. unfold datetime in *. lia.
Qed.

Lemma streamlit_curve_total (c : clock) (p : Profile)
    (es : list StreamlitApp.entry) (H s : Z) :
  valid_profile p -> (1 <= s <= 60)%Z ->
  exists C : list R,
    StreamlitApp.curve c p es H s = Ok C /\
    List.length C = List.length (grid H s).
Proof.
  intros Hp Hs. unfold StreamlitApp.curve.
  destruct (divisor_pos p Hp) as (ke & HK & Hpos).
  rewrite HK, (t_hours_ok H s Hs). cbn [bind].
  destruct (simulate_nonneg F Ka ke (Vd p)
              (time_points (StreamlitApp.simulation_start_time (c 0%nat))
                 (grid H s))
              (StreamlitApp.doses c es)) as (C & HC & HL & _); [lra |].
  exists C. split; [exact HC |]. rewrite HL.
  unfold time_points. apply length_map.
Qed.

Lemma streamlit_zero_until_first_coffee_witness :
  exists C : list R,
    StreamlitApp.curve (same_day 0%Z) muz_70 [drip_at_8] 23 15 = Ok C /\
    nth 32 C 0 = 0.
Proof.
  destruct (streamlit_curve_total (same_day 0%Z) muz_70 [drip_at_8] 23 15)
    as (C & HC & HL); [unfold valid_profile; simpl; lia | lia |].
  exists C. split; [exact HC |].
  apply (streamlit_zero_until_first_coffee (same_day 0%Z) muz_70
           [drip_at_8] 23 15 32 C); try lia; try exact HC.
  - intros k. unfold same_day. lia.
  - rewrite HL, grid_23_15_length. lia.
  - repeat constructor. vm_compute. discriminate.
Defined.

(** ** The parameters over all valid profiles *)

(** X23.  For every valid profile the distribution volume is between 15.3
    and 90 L, the clearance between 0.2295 and 17.55 L/hr and the
    elimination constant between 0.015 and 0.195 per hour. *)
Theorem parameter_ranges (p : Profile) :
  valid_profile p ->
  15.3 <= Vd p <= 90 /\
  0.2295 <= CL p <= 17.55 /\
  exists ke : R, Ke p = Ok ke /\ 0.015 <= ke <= 0.195.
Proof.
  intros Hp. pose proof (weight_pos p Hp) as Hw.
  split; [| split].
  - unfold Vd, Vd_standard. destruct (gender p); lra.
  - unfold CL, CL_standard.
    destruct (metabolism_status p), (smoking_status p), (gender p),
      (liver_function p); lra.
  - eexists. split; [apply (Ke_closed_form p Hp) |].
    unfold Spec.metabolism_factor, Spec.smoking_factor, Spec.liver_factor.
    destruct (metabolism_status p), (smoking_status p), (liver_function p);
      lra.
Qed.

Lemma parameter_ranges_witness :
  15.3 <= Vd zena_kuracka_60 <= 90 /\
  0.2295 <= CL zena_kuracka_60 <= 17.55 /\
  exists ke : R, Ke zena_kuracka_60 = Ok ke /\ 0.015 <= ke <= 0.195.
Proof.
  apply (parameter_ranges zena_kuracka_60). unfold valid_profile; simpl; lia.
Defined.

(** X24.  Without the range check of the weight widget, the quotient
    [Ke = CL / Vd] raises [ZeroDivisionError] exactly for a weight of 0. *)
Theorem Ke_raises_iff (p : Profile) :
  Ke p = Raise ZeroDivisionError <-> weight p = 0%Z.
Proof.
  unfold Ke, truediv.
  assert (HV : Vd p = 0 <-> weight p = 0%Z).
  { rewrite Vd_closed_form. unfold Spec.Vd0, Spec.sex_factor. split.
    - intros H0. apply eq_IZR. destruct (gender p); lra.
    - intros ->. destruct (gender p); lra. }
  destruct (Req_dec_T (Vd p) 0) as [E | N]; split; intros Hx.
  - now apply HV.
  - reflexivity.
  - discriminate.
  - exfalso. apply N. now apply HV.
Qed.

Lemma Ke_raises_iff_witness :
  Ke {| weight := 0; gender := Zena; smoking_status := Kurak;
        liver_function := JatraNormalni;
        metabolism_status := MetabolismusNormalni |}
  = Raise ZeroDivisionError.
Proof.
  apply (proj2 (Ke_raises_iff
                  {| weight := 0; gender := Zena; smoking_status := Kurak;
                     liver_function := JatraNormalni;
                     metabolism_status := MetabolismusNormalni |})).
  reflexivity.
Defined.

(** ** Time labels *)

Example strftime_HM_0805 :
  strftime_HM (combine 3%Z (mk_time 8 5)) = "08:05"%string.
Proof. reflexivity. Qed.

Lemma digit_inj (x y : Z) :
  (0 <= x < 10)%Z -> (0 <= y < 10)%Z -> digit x = digit y -> x = y.
Proof.
  intros Hx Hy E. unfold digit in E.
  apply (f_equal nat_of_ascii) in E.
  rewrite !nat_ascii_embedding in E by lia. lia.
Qed.

Lemma two_digits_inj (x y : Z) :
  (0 <= x < 100)%Z -> (0 <= y < 100)%Z -> two_digits x = two_digits y -> x = y.
Proof.
  intros Hx Hy E. unfold two_digits in E.
  injection E as E1 E2.
  apply digit_inj in E1; [| Z.to_euclidean_division_equations; lia ..].
  apply digit_inj in E2; [| Z.to_euclidean_division_equations; lia ..].
  rewrite (Z.div_mod x 10), (Z.div_mod y 10) by lia. congruence.
Qed.

Lemma strftime_HM_minute (a b : datetime) :
  strftime_HM a = strftime_HM b -> minute_of_day a = minute_of_day b.
Proof.
  unfold strftime_HM, minute_of_day.
  change us_per_day with 86400000000%Z.
  change us_per_hour with 3600000000%Z.
  change us_per_minute with 60000000%Z.
  set (ua := (a mod 86400000000)%Z). set (ub := (b mod 86400000000)%Z).
  assert (Hua : (0 <= ua < 86400000000)%Z) by (apply Z.mod_pos_bound; lia).
  assert (Hub : (0 <= ub < 86400000000)%Z) by (apply Z.mod_pos_bound; lia).
  cbn [two_digits append]. intros E.
  injection E as E1 E2 E3 E4.
  assert (Eh : two_digits (ua / 3600000000) = two_digits (ub / 3600000000))
    by (unfold two_digits; congruence).
  assert (Em : two_digits (ua mod 3600000000 / 60000000)
               = two_digits (ub mod 3600000000 / 60000000))
    by (unfold two_digits; congruence).
  apply two_digits_inj in Eh; [| Z.to_euclidean_division_equations; lia ..].
  apply two_digits_inj in Em; [| Z.to_euclidean_division_equations; lia ..].
  revert Eh Em. Z.to_euclidean_division_equations. lia.
Qed.

Lemma minute_of_day_shift (a k : Z) :
  (0 < k < 1440)%Z ->
  minute_of_day (a + k * 60000000)%Z <> minute_of_day a.
Proof.
  intros Hk. unfold minute_of_day.
  change us_per_day with 86400000000%Z.
  change us_per_minute with 60000000%Z.
  Z.to_euclidean_division_equations. lia.
Qed.

(** X25.  The time labels of the grid are pairwise different: since the
    horizon is at most 23 hours and the step at most 60 minutes, the grid
    spans less than 24 hours and no "HH:MM" label comes twice. *)
Theorem time_labels_distinct (H s : Z) (start : datetime) :
  (1 <= H <= 23)%Z -> (1 <= s <= 60)%Z ->
  exists t_hours_ : list R,
    t_hours H s = Ok t_hours_ /\
    NoDup (time_labels (time_points start t_hours_)).
Proof.
  intros HH Hs. exists (grid H s). split; [now apply t_hours_ok |].
  destruct (grid_span H s HH Hs) as (n & HL & _ & Hn).
  assert (HLt : List.length (time_points start (grid H s)) = S n)
    by (unfold time_points; now rewrite length_map).
  apply (NoDup_nth _ EmptyString). unfold time_labels.
  rewrite length_map, HLt. intros i j Hi Hj E.
  assert (Hi' : (i < List.length (time_points start (grid H s)))%nat)
    by (rewrite HLt; exact Hi).
  assert (Hj' : (j < List.length (time_points start (grid H s)))%nat)
    by (rewrite HLt; exact Hj).
  rewrite (nth_map_in_range _ _ i 0%Z) in E by exact Hi'.
  rewrite (nth_map_in_range _ _ j 0%Z) in E by exact Hj'.
  rewrite !time_points_nth in E by (rewrite HL; assumption).
  apply strftime_HM_minute in E.
  destruct (Nat.lt_trichotomy i j) as [Hlt | [Heq | Hgt]]; [| exact Heq |];
    exfalso.
  - apply (minute_of_day_shift (start + Z.of_nat i * s * 60000000)%Z
             ((Z.of_nat j - Z.of_nat i) * s)%Z); [nia |].
    etransitivity; [| symmetry; exact E]. f_equal. unfold datetime in *. ring.
  - apply (minute_of_day_shift (start + Z.of_nat j * s * 60000000)%Z
             ((Z.of_nat i - Z.of_nat j) * s)%Z); [nia |].
    etransitivity; [| exact E]. f_equal. unfold datetime in *. ring.
Qed.

Lemma time_labels_distinct_witness :
  exists t_hours_ : list R,
    t_hours 23 60 = Ok t_hours_ /\
    NoDup (time_labels (time_points (combine 0%Z (mk_time 8 0)) t_hours_)).
Proof.
  apply (time_labels_distinct 23 60 (combine 0%Z (mk_time 8 0))); lia.
Defined.

(** ** The shaded sleep period of streamlit_app.py *)

Lemma timedelta_hours_whole (h : Z) : timedelta_hours (IZR h) = (h * us_per_hour)%Z.
Proof.
  unfold timedelta_hours. rewrite <- mult_IZR. apply round_half_even_IZR.
Qed.

(** X26.  In streamlit_app.py the sleep period is shaded exactly when the
    clock is read on the same date for the bedtime as for the start and the
    bedtime is at most the horizon H (in hours after midnight); in that case
    the concentration reported for the bedtime is read at a grid point at
    most half a time step away from it.  If the date has advanced between
    the two readings, nothing is shaded. *)
Theorem streamlit_shaded_bedtime (today bedtime_today : date) (H s : Z)
    (bedtime : time) :
  valid_time bedtime -> (1 <= H <= 23)%Z -> (1 <= s <= 60)%Z ->
  (today <= bedtime_today)%Z ->
  let start := StreamlitApp.simulation_start_time today in
  let bd := bedtime_datetime bedtime_today start bedtime in
  (StreamlitApp.shade_bedtime today bedtime_today H bedtime = true
   <-> bedtime_today = today /\ (combine 0 bedtime <= H * us_per_hour)%Z) /\
  (StreamlitApp.shade_bedtime today bedtime_today H bedtime = true ->
   exists (t_hours_ : list R) (idx : nat),
     t_hours H s = Ok t_hours_ /\
     idx_bedtime (time_points start t_hours_) bd = Ok idx /\
     (Z.abs (nth idx (time_points start t_hours_) 0 - bd)
      <= s * 30000000)%Z).
Proof.
  intros Hb HH Hs Hd start bd.
  assert (Ebd : bd = combine bedtime_today bedtime)
    by (apply streamlit_bedtime_same_day_aux; assumption).
  assert (Estart : start = (today * us_per_day)%Z).
  { unfold start, StreamlitApp.simulation_start_time.
    rewrite combine_day. change (combine 0%Z (mk_time 0 0)) with 0%Z.
    unfold datetime. ring. }
  pose proof (combine_bounds 0%Z bedtime Hb) as [Hlo Hhi].
  assert (Hshade : StreamlitApp.shade_bedtime today bedtime_today H bedtime
                   = true
                   <-> bedtime_today = today
                       /\ (combine 0 bedtime <= H * us_per_hour)%Z).
  { unfold StreamlitApp.shade_bedtime, StreamlitApp.simulation_end_time.
    fold start. fold bd.
    rewrite timedelta_hours_whole, Z.leb_le, Ebd, Estart,
      (combine_day bedtime_today).
    change us_per_day with 86400000000%Z in *.
    change us_per_hour with 3600000000%Z in *.
    unfold datetime, date in *. split.
    - intros Hle. assert (bedtime_today = today) by nia. subst. lia.
    - intros [-> Hle]. lia. }
  split; [exact Hshade |].
  intros Hsh. apply Hshade in Hsh. destruct Hsh as [-> Hle].
  destruct (bedtime_within_half_step_aux H s start bd HH Hs)
    as (idx & Hidx & Habs).
  { rewrite Ebd, Estart, (combine_day today).
    unfold datetime in *. lia. }
  exists (grid H s), idx. split; [now apply t_hours_ok |]. now split.
Qed.

Lemma streamlit_shaded_bedtime_witness :
  let start := StreamlitApp.simulation_start_time 0%Z in
  let bd := bedtime_datetime 0%Z start (mk_time 22 5) in
  (StreamlitApp.shade_bedtime 0%Z 0%Z 23 (mk_time 22 5) = true
   <-> 0%Z = 0%Z /\ (combine 0 (mk_time 22 5) <= 23 * us_per_hour)%Z) /\
  (StreamlitApp.shade_bedtime 0%Z 0%Z 23 (mk_time 22 5) = true ->
   exists (t_hours_ : list R) (idx : nat),
     t_hours 23 15 = Ok t_hours_ /\
     idx_bedtime (time_points start t_hours_) bd = Ok idx /\
     (Z.abs (nth idx (time_points start t_hours_) 0 - bd)
      <= 15 * 30000000)%Z).
Proof.
  apply (streamlit_shaded_bedtime 0%Z 0%Z 23 15 (mk_time 22 5));
    [unfold valid_time; simpl; lia | lia | lia | lia].
Defined.

(** ** C9: the clock and the curve *)

(** The curve of streamlit_app.py for one Drip coffee at 8:00 when every
    reading of the clock falls on the same day: between 1.4895 and 1.4896
    mg/L at 9:00, grid point 36 of a quarter-hour grid. *)
Lemma same_day_curve_at_9 :
  exists C : list R,
    StreamlitApp.curve (same_day 0%Z) muz_70 [drip_at_8] 23 15 = Ok C /\
    1.4895 < nth 36 C 0 < 1.4896.
Proof.
  destruct scenario_parameters as (EV & _ & EK & EKa).
  assert (Hs : (1 <= 15 <= 60)%Z) by lia.
  unfold StreamlitApp.curve. rewrite EK, (t_hours_ok 23 15 Hs). cbn [bind].
  set (start := StreamlitApp.simulation_start_time (same_day 0%Z 0%nat)).
  change (StreamlitApp.doses (same_day 0%Z) [drip_at_8])
    with [(IZR 95, combine 0%Z (mk_time 8 0))].
  rewrite simulate_single. unfold C_dose.
  rewrite EV. unfold F, Ka.
  rewrite calculate_plasma_concentration_ok by lra.
  eexists. split; [reflexivity |].
  assert (H36 : (36 < List.length (grid 23 15))%nat)
    by (rewrite grid_23_15_length; lia).
  rewrite (nth_map_in_range _ _ _ 0)
    by (rewrite time_since_dose_length; unfold time_points;
        now rewrite length_map).
  rewrite time_since_dose_nth_aux by exact H36.
  rewrite grid_nth by exact H36.
  replace (Rmax (INR 36 * (15 / 60)
                 - IZR (combine 0%Z (mk_time 8 0) - start) / IZR us_per_hour) 0)
    with 1.
  - pose proof one_hour_value as [Hlo Hhi].
    rewrite Rmax_left by lra. split; assumption.
  - change (combine 0%Z (mk_time 8 0) - start)%Z with 28800000000%Z.
    change (IZR us_per_hour) with 3600000000.
    rewrite Rmax_left; simpl; lra.
Qed.

(** The same entry in a run that starts just before midnight: the coffee
    is dated 8:00 of the next day, 32 hours after the start, and the curve
    is 0 at 9:00. *)
Lemma midnight_curve_at_9 :
  exists C : list R,
    StreamlitApp.curve midnight_straddle muz_70 [drip_at_8] 23 15 = Ok C /\
    nth 36 C 0 = 0.
Proof.
  destruct (streamlit_curve_total midnight_straddle muz_70 [drip_at_8] 23 15)
    as (C & HC & HL); [unfold valid_profile; simpl; lia | lia |].
  exists C. split; [exact HC |].
  unfold StreamlitApp.curve in HC.
  destruct (Ke muz_70) as [ke | e]; cbn [bind] in HC; [| discriminate].
  rewrite (t_hours_ok 23 15) in HC by lia. cbn [bind] in HC.
  apply (no_effect_before_dose_aux _ _ _ _ _ _ _ 36%nat HC).
  - unfold time_points. rewrite length_map, grid_23_15_length. lia.
  - rewrite time_points_nth by (rewrite grid_23_15_length; lia).
    repeat constructor. vm_compute. discriminate.
Qed.

(** C9.  Determinism fails in streamlit_app.py, which reads the clock for
    the start of the simulation and again for every entry: with the same
    profile, the same entry (one Drip coffee at 8:00) and the same grid, a
    run whose readings all fall on one day and a run that starts just before
    midnight return different curves, about 1.49 mg/L against 0 at 9:00. *)
Theorem midnight_run_changes_curve :
  exists C C' : list R,
    StreamlitApp.curve (same_day 0%Z) muz_70 [drip_at_8] 23 15 = Ok C /\
    StreamlitApp.curve midnight_straddle muz_70 [drip_at_8] 23 15 = Ok C' /\
    1.4895 < nth 36 C 0 < 1.4896 /\
    nth 36 C' 0 = 0 /\
    C <> C'.
Proof.
  destruct same_day_curve_at_9 as (C & HC & Hlo & Hhi).
  destruct midnight_curve_at_9 as (C' & HC' & H0).
  exists C, C'. split; [exact HC |]. split; [exact HC' |].
  split; [now split |]. split; [exact H0 |].
  intros ->. lra.
Qed.

(** X27.  When every reading of the clock during a run returns the same
    date, the curve of streamlit_app.py does not depend on that date: two
    such runs with the same profile, entries and grid configuration return
    the same result.  The curve of kofeinator.py, which depends on one
    reading only, is the same for every date. *)
Theorem curve_same_date_deterministic (clock1 clock2 : clock)
    (today1 today2 : date) (p : Profile)
    (coffee_entries : list StreamlitApp.entry)
    (caffeine_per_serving servings : Z) (dosing_interval : R)
    (first_dose_time : time) (simulation_time_hours time_step_hours : Z) :
  (forall k : nat, clock1 k = clock1 0%nat) ->
  (forall k : nat, clock2 k = clock2 0%nat) ->
  StreamlitApp.curve clock1 p coffee_entries
    simulation_time_hours time_step_hours =
  StreamlitApp.curve clock2 p coffee_entries
    simulation_time_hours time_step_hours /\
  Kofeinator.curve today1 p caffeine_per_serving servings dosing_interval
    first_dose_time simulation_time_hours time_step_hours =
  Kofeinator.curve today2 p caffeine_per_serving servings dosing_interval
    first_dose_time simulation_time_hours time_step_hours.
Proof.
  intros H1 H2. split.
  - rewrite (streamlit_curve_ext clock1 (same_day (clock1 0%nat)))
      by (intros j; apply H1).
    rewrite (streamlit_curve_ext clock2 (same_day (clock2 0%nat)))
      by (intros j; apply H2).
    rewrite (streamlit_curve_day (clock1 0%nat)),
      (streamlit_curve_day (clock2 0%nat)).
    reflexivity.
  - rewrite (kofeinator_curve_day today1), (kofeinator_curve_day today2).
    reflexivity.
Qed.

Lemma curve_same_date_deterministic_witness :
  StreamlitApp.curve (same_day 3%Z) muz_70 [drip_at_8] 23 15 =
  StreamlitApp.curve (same_day 7%Z) muz_70 [drip_at_8] 23 15 /\
  Kofeinator.curve 3%Z muz_70 95 2 2 (mk_time 8 0) 23 15 =
  Kofeinator.curve 7%Z muz_70 95 2 2 (mk_time 8 0) 23 15.
Proof.
  apply (curve_same_date_deterministic (same_day 3%Z) (same_day 7%Z) 3%Z 7%Z
           muz_70 [drip_at_8] 95 2 2 (mk_time 8 0) 23 15);
    intros k; reflexivity.
Defined.
